(** * Task-tracking client: list, creation and detail screens

    A shallow embedding of the three React Native screens
    (HomeScreen, AddScreen, DetailScreen) and of the part of the
    JavaScript/React runtime they rely on: strings as UTF-16 code units,
    [String.prototype.trim], async functions with [await],
    [try]/[catch]/[finally], [setTimeout]/[clearTimeout], [Alert.alert]
    dialogs and axios requests whose responses arrive later. *)

From Stdlib Require Import List Bool Arith ZArith NArith Lia String Ascii DecimalString.
From Stdlib Require DecimalZ.
Import ListNotations.

Set Implicit Arguments.

(** ** JavaScript strings *)

Module Js.

(** A JavaScript string is a sequence of UTF-16 code units. *)
Definition jsstring := list N.

(** An ASCII literal of the source, as code units. *)
Definition lit (s : string) : jsstring :=
  List.map N_of_ascii (list_ascii_of_string s).

(** The integers that a JavaScript number holds exactly and prints digit
    for digit: up to [Number.MAX_SAFE_INTEGER] in absolute value. *)
Definition safe_integer (n : Z) : Prop := (Z.abs n <= 9007199254740991)%Z.

(** [`${n}`] for a safe integer [n]: its decimal digits, with a minus sign
    when negative. Beyond the safe integers JavaScript rounds the number
    and, from 1e21, prints an exponent; those numbers are outside this
    embedding, and a statement that depends on the digits assumes
    [safe_integer]. *)
Definition of_number (n : Z) : jsstring :=
  lit (NilZero.string_of_int (Z.to_int n)).

(** ECMAScript WhiteSpace and LineTerminator code points, the ones
    [trim] strips; all of them lie in the Basic Multilingual Plane. *)
Definition isWhiteSpace (c : N) : bool :=
  ((9 <=? c) && (c <=? 13) || (c =? 32) || (c =? 160) || (c =? 5760)
   || (8192 <=? c) && (c <=? 8202) || (c =? 8232) || (c =? 8233)
   || (c =? 8239) || (c =? 8287) || (c =? 12288) || (c =? 65279))%N.

Fixpoint trimStart (s : jsstring) : jsstring :=
  match s with
  | [] => []
  | c :: r => if isWhiteSpace c then trimStart r else s
  end.

Definition trimEnd (s : jsstring) : jsstring := rev (trimStart (rev s)).

Definition trim (s : jsstring) : jsstring := trimEnd (trimStart s).

(** Truthiness of a string: only the empty string is falsy. *)
Definition truthy (s : jsstring) : bool :=
  match s with [] => false | _ :: _ => true end.

(** [a || b] on strings where [a] may be [undefined]. *)
Definition or_else (a : option jsstring) (b : jsstring) : jsstring :=
  match a with
  | Some s => if truthy s then s else b
  | None => b
  end.

(** Empty, or made of white space only. *)
Definition whitespace_only (s : jsstring) : bool := forallb isWhiteSpace s.

Definition eqb (a b : jsstring) : bool :=
  if list_eq_dec N.eq_dec a b then true else false.

End Js.

Import Js.

(** ** Shared definitions of the three screens *)

Definition API_URL : jsstring := lit "http://localhost:3000/api/tasks".

Module Api.

(** [interface Task] *)
Record Task := mkTask {
  id : Z;
  title : jsstring;
  description : option jsstring;
  isCompleted : bool;
  createdAt : jsstring
}.

(** [{ ...t, isCompleted: status }] *)
Definition with_isCompleted (t : Task) (status : bool) : Task :=
  mkTask (id t) (title t) (description t) status (createdAt t).

End Api.

(** The object literals sent as request bodies; a field that the literal
    does not mention is [None]. *)
Record Body := mkBody {
  body_title : option jsstring;
  body_description : option jsstring;
  body_isCompleted : option bool
}.

(** The type argument of [axios.get<T>]. *)
Inductive DataType := TaskArray | TaskObject.

Inductive Request :=
| axios_get (T : DataType) (url : jsstring)
| axios_post (url : jsstring) (body : Body)
| axios_put (url : jsstring) (body : Body)
| axios_delete (url : jsstring).

(** What [response.data] holds; the screens ignore the response of
    POST, PUT and DELETE. *)
Definition response_data (r : Request) : Type :=
  match r with
  | axios_get TaskArray _ => list Api.Task
  | axios_get TaskObject _ => Api.Task
  | _ => unit
  end.

(** A rejected request: no distinction is made by any screen. *)
Inductive Error := NetworkError | HttpStatus (code : nat).

Definition is_post (r : Request) : bool :=
  match r with axios_post _ _ => true | _ => false end.
Definition is_put (r : Request) : bool :=
  match r with axios_put _ _ => true | _ => false end.
Definition is_delete (r : Request) : bool :=
  match r with axios_delete _ => true | _ => false end.
Definition is_get (r : Request) : bool :=
  match r with axios_get _ _ => true | _ => false end.

(** ** Async computations and the runtime that runs them *)

Section Runtime.

(** [St] is the component's React state, [Cb] names the callbacks the
    component hands to the platform (timer callbacks, alert buttons). *)
Variables St Cb : Type.

Record AlertButton := mkButton {
  text : string;
  style : option string;
  onPress : option Cb
}.

Inductive Eff :=
| Alert_alert (ttl message : string) (buttons : list AlertButton)
| console_error (label : string) (error : Error)
| navigation_goBack.

Definition TimerId := nat.

(** The body of a (possibly async) function, up to its completion. *)
Inductive Async (A : Type) : Type :=
| Ret (a : A)
| Throw (e : Error)
| SetState (f : St -> St) (k : Async A)
| Do (e : Eff) (k : Async A)
| SetTimeout (cb : Cb) (ms : nat) (k : TimerId -> Async A)
| ClearTimeout (h : TimerId) (k : Async A)
| Await (req : Request) (ok : response_data req -> Async A) (err : Error -> Async A).

Arguments Ret {A} a.
Arguments Throw {A} e.

Fixpoint bind {A B} (m : Async A) (f : A -> Async B) : Async B :=
  match m with
  | Ret a => f a
  | Throw e => Throw e
  | SetState g k => SetState g (bind k f)
  | Do e k => Do e (bind k f)
  | SetTimeout cb ms k => SetTimeout cb ms (fun h => bind (k h) f)
  | ClearTimeout h k => ClearTimeout h (bind k f)
  | Await req ok err => Await req (fun d => bind (ok d) f) (fun e => bind (err e) f)
  end.

(** [try { m } catch (error) { h error }] *)
Fixpoint try_catch {A} (m : Async A) (h : Error -> Async A) : Async A :=
  match m with
  | Ret a => Ret a
  | Throw e => h e
  | SetState g k => SetState g (try_catch k h)
  | Do e k => Do e (try_catch k h)
  | SetTimeout cb ms k => SetTimeout cb ms (fun i => try_catch (k i) h)
  | ClearTimeout i k => ClearTimeout i (try_catch k h)
  | Await req ok err =>
      Await req (fun d => try_catch (ok d) h) (fun e => try_catch (err e) h)
  end.

(** [try { m } finally { fin }]: [fin] runs on either completion, which
    is then propagated. *)
Fixpoint try_finally {A} (m : Async A) (fin : Async unit) : Async A :=
  match m with
  | Ret a => bind fin (fun _ => Ret a)
  | Throw e => bind fin (fun _ => Throw e)
  | SetState g k => SetState g (try_finally k fin)
  | Do e k => Do e (try_finally k fin)
  | SetTimeout cb ms k => SetTimeout cb ms (fun i => try_finally (k i) fin)
  | ClearTimeout i k => ClearTimeout i (try_finally k fin)
  | Await req ok err =>
      Await req (fun d => try_finally (ok d) fin) (fun e => try_finally (err e) fin)
  end.

Definition setState (f : St -> St) : Async unit := SetState f (Ret tt).
Definition call (e : Eff) : Async unit := Do e (Ret tt).
Definition setTimeout (cb : Cb) (ms : nat) : Async TimerId := SetTimeout cb ms Ret.
Definition clearTimeout (h : TimerId) : Async unit := ClearTimeout h (Ret tt).
(** [await axios...]: a rejection is thrown at the await. *)
Definition await (req : Request) : Async (response_data req) :=
  Await req Ret Throw.

(** *** The runtime *)

Record Timer := mkTimer { handle : TimerId; due : nat; callback : Cb }.

(** A request in flight, with the rest of the async function that
    awaits it. *)
Record Pending := mkPending {
  p_result : Type;
  p_req : Request;
  p_ok : response_data p_req -> Async p_result;
  p_err : Error -> Async p_result
}.

Inductive Obs :=
| Called (e : Eff)
| Sent (r : Request)
| Unhandled (e : Error).

Record World := mkWorld {
  state : St;
  clock : nat;
  next_handle : TimerId;
  timers : list Timer;
  pending : list Pending;
  dialogs : list (list AlertButton);
  trace : list (nat * Obs)
}.

Definition log (o : Obs) (w : World) : World :=
  mkWorld (state w) (clock w) (next_handle w) (timers w) (pending w)
          (dialogs w) (trace w ++ [(clock w, o)]).

Definition upd_state (f : St -> St) (w : World) : World :=
  mkWorld (f (state w)) (clock w) (next_handle w) (timers w) (pending w)
          (dialogs w) (trace w).

Definition set_clock (t : nat) (w : World) : World :=
  mkWorld (state w) t (next_handle w) (timers w) (pending w)
          (dialogs w) (trace w).

Definition set_timers (ts : list Timer) (w : World) : World :=
  mkWorld (state w) (clock w) (next_handle w) ts (pending w)
          (dialogs w) (trace w).

Definition set_pending (ps : list Pending) (w : World) : World :=
  mkWorld (state w) (clock w) (next_handle w) (timers w) ps
          (dialogs w) (trace w).

Definition set_dialogs (ds : list (list AlertButton)) (w : World) : World :=
  mkWorld (state w) (clock w) (next_handle w) (timers w) (pending w)
          ds (trace w).

Definition add_timer (cb : Cb) (ms : nat) (w : World) : World :=
  mkWorld (state w) (clock w) (S (next_handle w))
          (timers w ++ [mkTimer (next_handle w) (clock w + ms) cb])
          (pending w) (dialogs w) (trace w).

Definition del_timer (h : TimerId) (w : World) : World :=
  set_timers (filter (fun t => negb (handle t =? h)) (timers w)) w.

(** A platform call: it is recorded, and an alert opens a dialog. *)
Definition perform (e : Eff) (w : World) : World :=
  let w' := log (Called e) w in
  match e with
  | Alert_alert _ _ bs => set_dialogs (dialogs w' ++ [bs]) w'
  | _ => w'
  end.

Definition send {A} (req : Request) (ok : response_data req -> Async A)
           (err : Error -> Async A) (w : World) : World :=
  set_pending (pending w ++ [mkPending req ok err]) (log (Sent req) w).

Inductive Outcome (A : Type) :=
| Returned (a : A)
| Thrown (e : Error)
| Suspended.

Arguments Returned {A} a.
Arguments Thrown {A} e.
Arguments Suspended {A}.

(** Run a computation until it completes or reaches an [await]. *)
Fixpoint exec {A} (t : Async A) (w : World) : World * Outcome A :=
  match t with
  | Ret a => (w, Returned a)
  | Throw e => (w, Thrown e)
  | SetState f k => exec k (upd_state f w)
  | Do e k => exec k (perform e w)
  | SetTimeout cb ms k => exec (k (next_handle w)) (add_timer cb ms w)
  | ClearTimeout h k => exec k (del_timer h w)
  | Await req ok err => (send req ok err w, Suspended)
  end.

(** A handler invoked by the platform: nobody observes its promise, so
    a rejection ends up as an unhandled one. *)
Definition fire {A} (t : Async A) (w : World) : World :=
  let (w', o) := exec t w in
  match o with
  | Thrown e => log (Unhandled e) w'
  | _ => w'
  end.

Fixpoint remove_nth {X} (n : nat) (l : list X) : list X :=
  match n, l with
  | _, [] => []
  | O, _ :: r => r
  | S m, x :: r => x :: remove_nth m r
  end.

(** The [i]-th request in flight settles the way [server] answers it,
    and the function awaiting it goes on. *)
Definition respond (i : nat) (server : forall r : Request, Error + response_data r)
           (w : World) : World :=
  match nth_error (pending w) i with
  | None => w
  | Some p =>
      let w' := set_pending (remove_nth i (pending w)) w in
      match server (p_req p) with
      | inl e => fire (p_err p e) w'
      | inr d => fire (p_ok p d) w'
      end
  end.

(** The user picks button [j] of the [i]-th open dialog, which closes. *)
Definition choose (run : Cb -> World -> World) (i j : nat) (w : World) : World :=
  match nth_error (dialogs w) i with
  | None => w
  | Some bs =>
      let w' := set_dialogs (remove_nth i (dialogs w)) w in
      match nth_error bs j with
      | Some b =>
          match onPress b with
          | Some cb => run cb w'
          | None => w'
          end
      | None => w'
      end
  end.

(** Timers in the order in which they fire: by due time, and by creation
    among those due at the same time. *)
Fixpoint insert_by_due (t : Timer) (l : list Timer) : list Timer :=
  match l with
  | [] => [t]
  | u :: r => if due t <=? due u then t :: l else u :: insert_by_due t r
  end.

Definition sort_by_due (l : list Timer) : list Timer :=
  fold_right insert_by_due [] l.

(** A timer's callback runs at the timer's due time. *)
Definition run_timer (run : Cb -> World -> World) (t : Timer) (w : World) : World :=
  run (callback t) (set_clock (Nat.max (clock w) (due t)) w).

(** Time passes: the timers that fall due within [dt] fire in order. No
    callback of these screens sets a timer, so one pass over the timers
    present is enough. *)
Definition advance (run : Cb -> World -> World) (dt : nat) (w : World) : World :=
  let deadline := clock w + dt in
  let ready := sort_by_due (filter (fun t => due t <=? deadline) (timers w)) in
  let later := filter (fun t => negb (due t <=? deadline)) (timers w) in
  set_clock deadline (fold_left (fun acc t => run_timer run t acc) ready (set_timers later w)).

Definition sent (w : World) : list Request :=
  flat_map (fun o => match snd o with Sent r => [r] | _ => [] end) (trace w).

Definition calls (w : World) : list Eff :=
  flat_map (fun o => match snd o with Called e => [e] | _ => [] end) (trace w).

Definition unhandled (w : World) : list Error :=
  flat_map (fun o => match snd o with Unhandled e => [e] | _ => [] end) (trace w).

Definition in_flight (w : World) : list Request := List.map p_req (pending w).

End Runtime.

Arguments Ret {St Cb A} a.
Arguments Throw {St Cb A} e.
Arguments Returned {A} a.
Arguments Thrown {A} e.
Arguments Suspended {A}.
Arguments console_error {Cb} label error.
Arguments navigation_goBack {Cb}.
Arguments setState {St Cb} f.
Arguments call {St Cb} e.
Arguments setTimeout {St Cb} cb ms.
Arguments await {St Cb} req.
Arguments clearTimeout {St Cb} h.
Arguments Called {Cb} e.
Arguments Sent {Cb} r.
Arguments Unhandled {Cb} e.

Declare Scope async_scope.
Delimit Scope async_scope with async.
Notation "x <- m ;; k" := (bind m (fun x => k))
  (at level 61, m at next level, right associativity) : async_scope.
Notation "m ;; k" := (bind m (fun _ => k))
  (at level 61, right associativity) : async_scope.
Open Scope async_scope.

(** ** The list screen (HomeScreen) *)

Module Home.

Record State := mkState {
  tasks : list Api.Task;
  loading : bool;
  searchText : jsstring;
  refreshing : bool
}.

(** The one closure handed to the platform: the timer callback
    [() => { fetchTasks(searchText) }], with the [searchText] of the
    render that created it. *)
Inductive Callback := debounced (searchText : jsstring).

Definition Fn := Async State Callback.

Definition setTasks (f : list Api.Task -> list Api.Task) : Fn unit :=
  setState (fun s => mkState (f (tasks s)) (loading s) (searchText s) (refreshing s)).
Definition setLoading (b : bool) : Fn unit :=
  setState (fun s => mkState (tasks s) b (searchText s) (refreshing s)).
Definition setSearchText (v : jsstring) : Fn unit :=
  setState (fun s => mkState (tasks s) (loading s) v (refreshing s)).
Definition setRefreshing (b : bool) : Fn unit :=
  setState (fun s => mkState (tasks s) (loading s) (searchText s) b).

Definition list_url (query : jsstring) : jsstring :=
  API_URL ++ (if truthy query then lit "?search=" ++ query else []).

Definition item_url (id : Z) : jsstring :=
  API_URL ++ lit "/" ++ of_number id.

Definition fetchTasks (query : jsstring) : Fn unit :=
  try_finally
    (try_catch
       (data <- await (axios_get TaskArray (list_url query)) ;;
        setTasks (fun _ => data))
       (fun error => call (console_error "Error fetching tasks:" error)))
    (setLoading false ;; setRefreshing false).

(** The body of the search effect; its result is the timer that the
    effect's cleanup clears. *)
Definition searchEffect (searchText : jsstring) : Fn TimerId :=
  setLoading true ;;
  handler <- setTimeout (debounced searchText) 300 ;;
  Ret handler.

Definition searchCleanup (handler : TimerId) : Fn unit :=
  clearTimeout handler.

Definition handleToggleStatus (id : Z) (status : bool) : Fn unit :=
  try_catch
    (_ <- await (axios_put (item_url id) (mkBody None None (Some status))) ;;
     setTasks (List.map (fun t =>
       if (Api.id t =? id)%Z then Api.with_isCompleted t status else t)))
    (fun error => call (console_error "Error updating status:" error)).

Definition handleRefresh (s : State) : Fn unit :=
  setRefreshing true ;;
  fetchTasks (searchText s).

Definition Rt := World State Callback.

Definition run_callback (cb : Callback) (w : Rt) : Rt :=
  match cb with
  | debounced q => fire (fetchTasks q) w
  end.

(** The mounted component: the runtime, and the cleanup that React keeps
    for the search effect. *)
Record Screen := mkScreen {
  world : Rt;
  cleanup : option TimerId
}.

Definition on_world (f : Rt -> Rt) (m : Screen) : Screen :=
  mkScreen (f (world m)) (cleanup m).

(** React runs the previous cleanup, then the effect of the new render. *)
Definition rerun_search_effect (m : Screen) : Screen :=
  let w1 := match cleanup m with
            | Some h => fire (searchCleanup h) (world m)
            | None => world m
            end in
  let (w2, o) := exec (searchEffect (searchText (state w1))) w1 in
  mkScreen w2 (match o with Returned h => Some h | _ => None end).

Definition initial : Rt :=
  mkWorld (mkState [] true [] false) 0 0 [] [] [] [].

Definition mount : Screen := rerun_search_effect (mkScreen initial None).

(** The rows are rendered unless the spinner replaces the list. *)
Definition list_shown (s : State) : bool :=
  negb (loading s && negb (refreshing s)).

(** What happens to the mounted screen: the search text is edited, the
    screen regains focus, the list is pulled down, the checkbox of a row
    is tapped, time passes, a request in flight settles. *)
Inductive Event :=
| ChangeText (v : jsstring)
| Focus
| Refresh
| PressToggle (row : nat)
| Elapse (ms : nat)
| Respond (i : nat) (server : forall r : Request, Error + response_data r).

Definition step (e : Event) (m : Screen) : Screen :=
  let s := state (world m) in
  match e with
  | ChangeText v =>
      (* a state update to the same value does not re-render, and the
         effect depends on [searchText] *)
      if Js.eqb v (searchText s) then m
      else rerun_search_effect (on_world (fire (setSearchText v)) m)
  | Focus => on_world (fire (fetchTasks (searchText s))) m
  | Refresh =>
      if list_shown s then on_world (fire (handleRefresh s)) m else m
  | PressToggle row =>
      if list_shown s then
        match nth_error (tasks s) row with
        | Some task =>
            on_world (fire (handleToggleStatus (Api.id task)
                                               (negb (Api.isCompleted task)))) m
        | None => m
        end
      else m
  | Elapse ms => on_world (advance run_callback ms) m
  | Respond i server => on_world (respond i server) m
  end.

Definition run (es : list Event) (m : Screen) : Screen :=
  fold_left (fun acc e => step e acc) es m.

End Home.

(** ** The creation screen (AddScreen) *)

Module Add.

Record State := mkState {
  title : jsstring;
  description : jsstring;
  loading : bool
}.

(** No alert of this screen has a button with a handler, and it sets no
    timer. *)
Inductive Callback := .

Definition Fn := Async State Callback.

Definition setTitle (v : jsstring) : Fn unit :=
  setState (fun s => mkState v (description s) (loading s)).
Definition setDescription (v : jsstring) : Fn unit :=
  setState (fun s => mkState (title s) v (loading s)).
Definition setLoading (b : bool) : Fn unit :=
  setState (fun s => mkState (title s) (description s) b).

Definition handleSaveTask (s : State) : Fn unit :=
  if negb (truthy (trim (title s))) then
    call (Alert_alert "Hata" "Görev başlığı boş bırakılamaz." [])
  else
    setLoading true ;;
    try_finally
      (try_catch
         (_ <- await (axios_post API_URL
                        (mkBody (Some (trim (title s)))
                                (Some (trim (description s))) None)) ;;
          call (Alert_alert "Başarılı" "Yeni görev başarıyla eklendi." []) ;;
          call navigation_goBack)
         (fun error =>
            call (console_error "Save Error:" error) ;;
            call (Alert_alert "Hata" "Görevi kaydederken bir sorun oluştu." [])))
      (setLoading false).

Definition Rt := World State Callback.

Definition run_callback (cb : Callback) (w : Rt) : Rt :=
  match cb with end.

Definition initial : Rt :=
  mkWorld (mkState [] [] false) 0 0 [] [] [] [].

(** What happens to the mounted screen: a field is edited, a button is
    pressed, an alert is answered, a request in flight settles. *)
Inductive Event :=
| ChangeTitle (v : jsstring)
| ChangeDescription (v : jsstring)
| PressSave
| PressBack
| Choose (dialog button : nat)
| Respond (i : nat) (server : forall r : Request, Error + response_data r).

Definition step (e : Event) (w : Rt) : Rt :=
  let s := state w in
  match e with
  | ChangeTitle v => fire (setTitle v) w
  | ChangeDescription v => fire (setDescription v) w
  | PressSave =>
      (* the button carries [disabled={loading}] *)
      if loading s then w else fire (handleSaveTask s) w
  | PressBack => fire (call navigation_goBack : Fn unit) w
  | Choose i j => choose run_callback i j w
  | Respond i server => respond i server w
  end.

Definition run (es : list Event) (w : Rt) : Rt :=
  fold_left (fun acc e => step e acc) es w.

End Add.

(** ** The detail screen (DetailScreen) *)

Module Detail.

Record State := mkState {
  title : jsstring;
  description : jsstring;
  isCompleted : bool;
  loading : bool;
  saving : bool
}.

(** The one handler given to an alert button: [onPress: performDelete]. *)
Inductive Callback := performDelete_cb.

Definition Fn := Async State Callback.

Definition setTitle (v : jsstring) : Fn unit :=
  setState (fun s => mkState v (description s) (isCompleted s) (loading s) (saving s)).
Definition setDescription (v : jsstring) : Fn unit :=
  setState (fun s => mkState (title s) v (isCompleted s) (loading s) (saving s)).
Definition setIsCompleted (b : bool) : Fn unit :=
  setState (fun s => mkState (title s) (description s) b (loading s) (saving s)).
Definition setLoading (b : bool) : Fn unit :=
  setState (fun s => mkState (title s) (description s) (isCompleted s) b (saving s)).
Definition setSaving (b : bool) : Fn unit :=
  setState (fun s => mkState (title s) (description s) (isCompleted s) (loading s) b).

Definition item_url (taskId : Z) : jsstring :=
  API_URL ++ lit "/" ++ of_number taskId.

Definition fetchTask (taskId : Z) : Fn unit :=
  try_finally
    (try_catch
       (setLoading true ;;
        fetchedTask <- await (axios_get TaskObject (item_url taskId)) ;;
        setTitle (Api.title fetchedTask) ;;
        setDescription (or_else (Api.description fetchedTask) []) ;;
        setIsCompleted (Api.isCompleted fetchedTask))
       (fun error =>
          call (console_error "Fetch Detail Error:" error) ;;
          call (Alert_alert "Hata" "Görev detayları yüklenemedi." []) ;;
          call navigation_goBack))
    (setLoading false).

Definition handleUpdateTask (taskId : Z) (s : State) : Fn unit :=
  if negb (truthy (trim (title s))) then
    call (Alert_alert "Hata" "Başlık boş olamaz." [])
  else
    setSaving true ;;
    try_finally
      (try_catch
         (_ <- await (axios_put (item_url taskId)
                        (mkBody (Some (trim (title s)))
                                (Some (trim (description s)))
                                (Some (isCompleted s)))) ;;
          call (Alert_alert "Başarılı" "Görev başarıyla güncellendi." []) ;;
          call navigation_goBack)
         (fun error =>
            call (console_error "Update Error:" error) ;;
            call (Alert_alert "Hata" "Görevi güncellerken bir sorun oluştu." [])))
      (setSaving false).

Definition cancel_button : AlertButton Callback :=
  mkButton "İptal" (Some "cancel"%string) None.
Definition confirm_button : AlertButton Callback :=
  mkButton "Sil" (Some "destructive"%string) (Some performDelete_cb).

Definition handleDeleteTask : Fn unit :=
  call (Alert_alert "Onay" "Bu görevi silmek istediğinizden emin misiniz?"
          [cancel_button; confirm_button]).

Definition performDelete (taskId : Z) : Fn unit :=
  try_catch
    (_ <- await (axios_delete (item_url taskId)) ;;
     call (Alert_alert "Başarılı" "Görev silindi." []) ;;
     call navigation_goBack)
    (fun error =>
       call (console_error "Delete Error:" error) ;;
       call (Alert_alert "Hata" "Görevi silerken bir sorun oluştu." [])).

Definition Rt := World State Callback.

Definition run_callback (taskId : Z) (cb : Callback) (w : Rt) : Rt :=
  match cb with
  | performDelete_cb => fire (performDelete taskId) w
  end.

Definition initial : Rt :=
  mkWorld (mkState [] [] false true false) 0 0 [] [] [] [].

(** The mount effect calls [fetchTask]. *)
Definition mount (taskId : Z) : Rt := fire (fetchTask taskId) initial.

(** What happens to the mounted screen: a field or the switch is changed,
    a button is pressed, an alert is answered, a request in flight
    settles. *)
Inductive Event :=
| ChangeTitle (v : jsstring)
| ChangeDescription (v : jsstring)
| SwitchCompleted (v : bool)
| PressUpdate
| PressDelete
| PressBack
| Choose (dialog button : nat)
| Respond (i : nat) (server : forall r : Request, Error + response_data r).

(** While [loading] the screen renders the spinner only, so none of the
    form's controls can be used; the update button carries
    [disabled={saving}]. *)
Definition step (taskId : Z) (e : Event) (w : Rt) : Rt :=
  let s := state w in
  match e with
  | ChangeTitle v => if loading s then w else fire (setTitle v) w
  | ChangeDescription v => if loading s then w else fire (setDescription v) w
  | SwitchCompleted v => if loading s then w else fire (setIsCompleted v) w
  | PressUpdate =>
      if loading s || saving s then w else fire (handleUpdateTask taskId s) w
  | PressDelete => if loading s then w else fire handleDeleteTask w
  | PressBack =>
      if loading s then w else fire (call navigation_goBack : Fn unit) w
  | Choose i j => choose (run_callback taskId) i j w
  | Respond i server => respond i server w
  end.

Definition run (taskId : Z) (es : list Event) (w : Rt) : Rt :=
  fold_left (fun acc e => step taskId e acc) es w.

End Detail.

(** ** Server behaviours used in the scenarios *)

Definition Server := forall r : Request, Error + response_data r.

Definition failing (e : Error) : Server := fun _ => inl e.

Definition answering (l : list Api.Task) (t : Api.Task) : Server :=
  fun r =>
    match r with
    | axios_get TaskArray _ => inr l
    | axios_get TaskObject _ => inr t
    | axios_post _ _ => inr tt
    | axios_put _ _ => inr tt
    | axios_delete _ => inr tt
    end.

(** The request bodies and the alerts of the handlers, by name. *)

Definition add_body (s : Add.State) : Body :=
  mkBody (Some (trim (Add.title s))) (Some (trim (Add.description s))) None.

Definition detail_body (s : Detail.State) : Body :=
  mkBody (Some (trim (Detail.title s))) (Some (trim (Detail.description s)))
         (Some (Detail.isCompleted s)).

Definition toggle_body (status : bool) : Body :=
  mkBody None None (Some status).

Definition add_rejection : Eff Add.Callback :=
  Alert_alert "Hata" "Görev başlığı boş bırakılamaz." [].
Definition add_saved : Eff Add.Callback :=
  Alert_alert "Başarılı" "Yeni görev başarıyla eklendi." [].
Definition add_failed : Eff Add.Callback :=
  Alert_alert "Hata" "Görevi kaydederken bir sorun oluştu." [].

Definition detail_rejection : Eff Detail.Callback :=
  Alert_alert "Hata" "Başlık boş olamaz." [].
Definition detail_saved : Eff Detail.Callback :=
  Alert_alert "Başarılı" "Görev başarıyla güncellendi." [].
Definition detail_failed : Eff Detail.Callback :=
  Alert_alert "Hata" "Görevi güncellerken bir sorun oluştu." [].
Definition detail_load_failed : Eff Detail.Callback :=
  Alert_alert "Hata" "Görev detayları yüklenemedi." [].
Definition delete_prompt : Eff Detail.Callback :=
  Alert_alert "Onay" "Bu görevi silmek istediğinizden emin misiniz?"
    [Detail.cancel_button; Detail.confirm_button].
Definition detail_deleted : Eff Detail.Callback :=
  Alert_alert "Başarılı" "Görev silindi." [].
Definition delete_failed : Eff Detail.Callback :=
  Alert_alert "Hata" "Görevi silerken bir sorun oluştu." [].

(** The toggle's update of the list: [prev.map(t => t.id === id ? {...t,
    isCompleted: status} : t)]. *)
Definition toggled (id : Z) (status : bool) (prev : list Api.Task) : list Api.Task :=
  List.map (fun t => if (Api.id t =? id)%Z then Api.with_isCompleted t status else t) prev.

(** ** Vocabulary of the statements about the list screen *)

Definition milk : Api.Task :=
  Api.mkTask 1 (lit "milk") None false (lit "2024-01-01").

(** The search effect's timer is armed: it is the only timer, it is the
    one the effect's cleanup will clear, it will call [fetchTasks q], and
    it is due at [t], which is still to come. *)
Definition armed (m : Home.Screen) (q : jsstring) (t : nat) : Prop :=
  exists h, Home.cleanup m = Some h
            /\ timers (Home.world m) = [mkTimer h t (Home.debounced q)]
            /\ clock (Home.world m) < t.

(** The search effect's timer has fired and no timer is left. *)
Definition quiet (m : Home.Screen) : Prop :=
  exists h, Home.cleanup m = Some h /\ timers (Home.world m) = [].

Definition debounce_inv (m : Home.Screen) : Prop :=
  quiet m \/ exists q t, armed m q t.

(** The search text is edited again and again: each pair is the time
    since the previous edit and the new text. *)
Fixpoint typing (rest : list (nat * jsstring)) : list Home.Event :=
  match rest with
  | [] => []
  | (gap, v) :: r => Home.Elapse gap :: Home.ChangeText v :: typing r
  end.

(** Every text of [vs] differs from the one before it, [prev] being the
    text before the first. *)
Fixpoint changes (prev : jsstring) (vs : list jsstring) : Prop :=
  match vs with
  | [] => True
  | v :: r => v <> prev /\ changes v r
  end.

(** The requests the list screen can have in flight: the ones parked by
    [fetchTasks] and by [handleToggleStatus]. *)
Definition home_known (p : Pending Home.State Home.Callback) : Prop :=
  (exists q w0, pending (fire (Home.fetchTasks q) w0) = pending w0 ++ [p]) \/
  (exists id status w0,
      pending (fire (Home.handleToggleStatus id status) w0) = pending w0 ++ [p]).

Definition home_inv (m : Home.Screen) : Prop :=
  debounce_inv m /\ Forall home_known (pending (Home.world m)).

(** ** Vocabulary of the statements about the two forms *)

(** The requests the creation screen can have in flight: the ones parked
    by [handleSaveTask] for a title that passes the validation. *)
Definition add_known (p : Pending Add.State Add.Callback) : Prop :=
  exists s w0, whitespace_only (Add.title s) = false
               /\ pending (fire (Add.handleSaveTask s) w0) = pending w0 ++ [p].

(** [loading] is true exactly while the one POST is in flight. *)
Definition add_inv (w : Add.Rt) : Prop :=
  if Add.loading (state w) then exists p, pending w = [p] /\ add_known p
  else pending w = [].

(** The two choices of the delete prompt. *)
Definition prompt_buttons : list (AlertButton Detail.Callback) :=
  [Detail.cancel_button; Detail.confirm_button].

(** The requests the detail screen can have in flight: the ones parked by
    [fetchTask], by [handleUpdateTask] for a title that passes the
    validation, and by [performDelete]. *)
Definition detail_known (taskId : Z) (p : Pending Detail.State Detail.Callback) : Prop :=
  (exists w0, pending (fire (Detail.fetchTask taskId) w0) = pending w0 ++ [p]) \/
  (exists s w0, whitespace_only (Detail.title s) = false
                /\ pending (fire (Detail.handleUpdateTask taskId s) w0) = pending w0 ++ [p]) \/
  (exists w0, pending (fire (Detail.performDelete taskId) w0) = pending w0 ++ [p]).

(** How many of the requests satisfy [f]. *)
Definition count (f : Request -> bool) (l : list Request) : nat :=
  List.length (filter f l).
Arguments count f l : simpl never.

(** Every request in flight is a known one, a PUT is in flight exactly
    while [saving] is true, and every open dialog is a plain alert or the
    delete prompt. *)
Definition detail_inv (taskId : Z) (w : Detail.Rt) : Prop :=
  Forall (detail_known taskId) (pending w)
  /\ count is_put (in_flight w) = (if Detail.saving (state w) then 1 else 0)
  /\ Forall (fun bs => bs = [] \/ bs = prompt_buttons) (dialogs w).

(** The DELETE requests sent so far. *)
Definition deletes (w : Detail.Rt) : list Request := filter is_delete (sent w).

(** ** Vocabulary of the further properties *)

(** No timer is pending, or the only one is the search effect's: the one
    its cleanup will clear, set for the search text now in the box, and due
    within the next 300ms. *)
Definition timer_tracks (m : Home.Screen) : Prop :=
  timers (Home.world m) = [] \/
  exists h t,
    Home.cleanup m = Some h
    /\ timers (Home.world m)
       = [mkTimer h t (Home.debounced (Home.searchText (state (Home.world m))))]
    /\ clock (Home.world m) < t
    /\ t <= clock (Home.world m) + 300.

(** The two shapes of request of the list screen: a GET of the list URL
    of some search text, and a PUT to a task's URL whose body holds
    [isCompleted] alone. *)
Definition home_request (r : Request) : Prop :=
  (exists q, r = axios_get TaskArray (Home.list_url q)) \/
  (exists id status, r = axios_put (Home.item_url id) (toggle_body status)).

(** The string is empty or does not start with white space. *)
Definition edge_ok (s : jsstring) : bool :=
  match s with
  | [] => true
  | c :: _ => negb (isWhiteSpace c)
  end.

(** No white space at either end. *)
Definition tidy (s : jsstring) : bool := edge_ok s && edge_ok (rev s).

(** The shape of request of the creation screen: a POST to the collection
    with a title that is not empty and a title and description without
    white space at their ends. *)
Definition add_request (r : Request) : Prop :=
  exists t d, r = axios_post API_URL (mkBody (Some t) (Some d) None)
              /\ t <> [] /\ tidy t = true /\ tidy d = true.

(** The shapes of request of the detail screen after its fetch: a PUT to
    the task's URL with such a title and description and a completion
    flag, and a DELETE of the task's URL. *)
Definition detail_request (taskId : Z) (r : Request) : Prop :=
  (exists t d c, r = axios_put (Detail.item_url taskId) (mkBody (Some t) (Some d) (Some c))
                 /\ t <> [] /\ tidy t = true /\ tidy d = true)
  \/ r = axios_delete (Detail.item_url taskId).

(** The text a field holds after the edits among [es], [pick] selecting
    the edits of that field. *)
Definition typed (pick : Add.Event -> option jsstring) (es : list Add.Event)
           (start : jsstring) : jsstring :=
  fold_left (fun t e => match pick e with Some v => v | None => t end) es start.

Definition title_edit (e : Add.Event) : option jsstring :=
  match e with Add.ChangeTitle v => Some v | _ => None end.

Definition description_edit (e : Add.Event) : option jsstring :=
  match e with Add.ChangeDescription v => Some v | _ => None end.

(** The detail screen shows its spinner exactly while its GET is in
    flight. *)
Definition fetching (w : Detail.Rt) : Prop :=
  count is_get (in_flight w) = (if Detail.loading (state w) then 1 else 0).

(** * Properties *)

Unset Implicit Arguments.

(** ** Strings *)

Lemma eqb_eq a b : Js.eqb a b = true <-> a = b.
Proof. unfold Js.eqb. destruct (list_eq_dec N.eq_dec a b); split; congruence. Qed.

Lemma eqb_neq a b : Js.eqb a b = false <-> a <> b.
Proof. unfold Js.eqb. destruct (list_eq_dec N.eq_dec a b); split; congruence. Qed.

Lemma truthy_rev s : truthy (rev s) = truthy s.
Proof.
  destruct s as [|c r]; [reflexivity|]. simpl.
  destruct (rev r); reflexivity.
Qed.

Lemma truthy_trimStart s : truthy (trimStart s) = negb (whitespace_only s).
Proof.
  induction s as [|c r IH]; simpl; [reflexivity|].
  destruct (isWhiteSpace c); simpl; auto.
Qed.

Lemma whitespace_only_trimStart s :
  whitespace_only (trimStart s) = whitespace_only s.
Proof.
  induction s as [|c r IH]; simpl; [reflexivity|].
  destruct (isWhiteSpace c) eqn:E; simpl; [assumption|].
  now rewrite E.
Qed.

Lemma whitespace_only_rev s : whitespace_only (rev s) = whitespace_only s.
Proof.
  unfold whitespace_only.
  induction s as [|c r IH]; simpl; [reflexivity|].
  rewrite forallb_app, IH. simpl. rewrite andb_true_r. apply andb_comm.
Qed.

(** [!title.trim()] holds exactly for the titles that are empty or made of
    white space only. *)
Lemma truthy_trim s : truthy (trim s) = negb (whitespace_only s).
Proof.
  unfold trim, trimEnd.
  now rewrite truthy_rev, truthy_trimStart, whitespace_only_rev,
    whitespace_only_trimStart.
Qed.

Lemma trim_nil_iff s : trim s = [] <-> whitespace_only s = true.
Proof.
  generalize (truthy_trim s). destruct (trim s); simpl;
    destruct (whitespace_only s); simpl; intuition congruence.
Qed.

(** [lit] and the printing of integers lose nothing. *)
Lemma lit_inj a b : lit a = lit b -> a = b.
Proof.
  unfold lit. intros H.
  rewrite <- (string_of_list_ascii_of_string a), <- (string_of_list_ascii_of_string b).
  f_equal. revert H.
  generalize (list_ascii_of_string a) (list_ascii_of_string b).
  induction l as [|x l IH]; intros [|y l'] H; cbn in *; try discriminate; auto.
  injection H as Hx Hl. f_equal; [|auto].
  rewrite <- (ascii_N_embedding x), <- (ascii_N_embedding y). now rewrite Hx.
Qed.

Lemma to_int_not_nil z : Z.to_int z <> Decimal.Pos Decimal.Nil /\ Z.to_int z <> Decimal.Neg Decimal.Nil.
Proof.
  pose proof (DecimalZ.to_of (Z.to_int z)) as H. rewrite DecimalZ.of_to in H.
  split; intros E; rewrite E in H; cbn in H; discriminate.
Qed.

Lemma of_number_inj a b : of_number a = of_number b -> a = b.
Proof.
  unfold of_number. intros H. apply lit_inj in H.
  apply DecimalZ.to_int_inj.
  destruct (to_int_not_nil a) as [A1 A2], (to_int_not_nil b) as [B1 B2].
  pose proof (NilZero.isi (Z.to_int a) A1 A2) as Ha.
  pose proof (NilZero.isi (Z.to_int b) B1 B2) as Hb.
  rewrite H in Ha. rewrite Ha in Hb. now injection Hb.
Qed.

(** ** What a run of the runtime shows *)

Section Observations.

Variables St Cb : Type.
Implicit Types (w : World St Cb) (o : Obs Cb).

Lemma sent_log o w :
  sent (log o w) = sent w ++ match o with Sent r => [r] | _ => [] end.
Proof. unfold sent. simpl. rewrite flat_map_app. simpl. now rewrite app_nil_r. Qed.

Lemma calls_log o w :
  calls (log o w) = calls w ++ match o with Called e => [e] | _ => [] end.
Proof. unfold calls. simpl. rewrite flat_map_app. simpl. now rewrite app_nil_r. Qed.

Lemma unhandled_log o w :
  unhandled (log o w) = unhandled w ++ match o with Unhandled e => [e] | _ => [] end.
Proof. unfold unhandled. simpl. rewrite flat_map_app. simpl. now rewrite app_nil_r. Qed.

Lemma trace_perform e w :
  trace (perform e w) = trace w ++ [(clock w, Called e)].
Proof. destruct e; reflexivity. Qed.

Lemma sent_perform e w : sent (perform e w) = sent w.
Proof.
  unfold sent. rewrite trace_perform, flat_map_app. simpl. apply app_nil_r.
Qed.

Lemma calls_perform e w : calls (perform e w) = calls w ++ [e].
Proof. unfold calls. rewrite trace_perform, flat_map_app. reflexivity. Qed.

Lemma unhandled_perform e w : unhandled (perform e w) = unhandled w.
Proof.
  unfold unhandled. rewrite trace_perform, flat_map_app. simpl. apply app_nil_r.
Qed.

Lemma state_perform e w : state (perform e w) = state w.
Proof. destruct e; reflexivity. Qed.

Lemma pending_perform e w : pending (perform e w) = pending w.
Proof. destruct e; reflexivity. Qed.

Lemma clock_perform e w : clock (perform e w) = clock w.
Proof. destruct e; reflexivity. Qed.

Lemma in_flight_send A req (ok : response_data req -> Async St Cb A) err w :
  in_flight (send req ok err w) = in_flight w ++ [req].
Proof. unfold in_flight. simpl. now rewrite map_app. Qed.

Lemma sent_send A req (ok : response_data req -> Async St Cb A) err w :
  sent (send req ok err w) = sent w ++ [req].
Proof. unfold send. apply (sent_log (Sent req)). Qed.

Lemma calls_send A req (ok : response_data req -> Async St Cb A) err w :
  calls (send req ok err w) = calls w.
Proof. unfold send. change (calls (log (Sent req) w) = calls w).
       rewrite calls_log. apply app_nil_r. Qed.

End Observations.

Create Rewrite HintDb obs.
Ltac observe :=
  unfold sent, calls, unhandled, in_flight; cbn;
  rewrite ?flat_map_app, ?map_app; cbn;
  rewrite ?app_nil_r, <- ?app_assoc; cbn.

(** From [pending (fire t w0) = pending w0 ++ [p]], what [p] is. *)
Ltac pin H := cbn in H; apply app_inv_head in H; injection H as <-.

#[global] Hint Rewrite sent_log calls_log unhandled_log sent_perform calls_perform
  unhandled_perform state_perform pending_perform clock_perform
  in_flight_send sent_send calls_send : obs.

Opaque API_URL.

(** ** Local validation of the title (creation and detail screens) *)

Lemma add_save_rejected s (w : Add.Rt) :
  whitespace_only (Add.title s) = true ->
  fire (Add.handleSaveTask s) w = perform add_rejection w.
Proof.
  intros H. unfold Add.handleSaveTask. rewrite truthy_trim, H. reflexivity.
Qed.

Lemma add_save_submitted s (w : Add.Rt) :
  whitespace_only (Add.title s) = false ->
  exists ok err,
    fire (Add.handleSaveTask s) w =
    send (A:=unit) (axios_post API_URL (add_body s)) ok err
         (upd_state (fun s => Add.mkState (Add.title s) (Add.description s) true) w).
Proof.
  intros H. unfold Add.handleSaveTask. rewrite truthy_trim, H.
  do 2 eexists. reflexivity.
Qed.

Lemma detail_update_rejected taskId s (w : Detail.Rt) :
  whitespace_only (Detail.title s) = true ->
  fire (Detail.handleUpdateTask taskId s) w = perform detail_rejection w.
Proof.
  intros H. unfold Detail.handleUpdateTask. rewrite truthy_trim, H. reflexivity.
Qed.

Lemma detail_update_submitted taskId s (w : Detail.Rt) :
  whitespace_only (Detail.title s) = false ->
  exists ok err,
    fire (Detail.handleUpdateTask taskId s) w =
    send (A:=unit) (axios_put (Detail.item_url taskId) (detail_body s)) ok err
         (upd_state (fun s => Detail.mkState (Detail.title s) (Detail.description s)
                                (Detail.isCompleted s) (Detail.loading s) true) w).
Proof.
  intros H. unfold Detail.handleUpdateTask. rewrite truthy_trim, H.
  do 2 eexists. reflexivity.
Qed.

(** C2. A create submission and an update submission are rejected locally,
    with an alert and without any request, exactly when the title is empty
    or made of white space only, which is when its trimmed form is empty;
    any other title leads to one request and no rejection alert. *)
Theorem C2_blank_title_rejected_locally :
  forall (taskId : Z) (a : Add.State) (wa : Add.Rt) (d : Detail.State) (wd : Detail.Rt),
    let wa' := fire (Add.handleSaveTask a) wa in
    let wd' := fire (Detail.handleUpdateTask taskId d) wd in
    (trim (Add.title a) = [] <-> whitespace_only (Add.title a) = true) /\
    (trim (Detail.title d) = [] <-> whitespace_only (Detail.title d) = true) /\
    sent wa' = sent wa ++
      (if whitespace_only (Add.title a) then []
       else [axios_post API_URL (add_body a)]) /\
    calls wa' = calls wa ++
      (if whitespace_only (Add.title a) then [add_rejection] else []) /\
    sent wd' = sent wd ++
      (if whitespace_only (Detail.title d) then []
       else [axios_put (Detail.item_url taskId) (detail_body d)]) /\
    calls wd' = calls wd ++
      (if whitespace_only (Detail.title d) then [detail_rejection] else []).
Proof.
  intros taskId a wa d wd wa' wd'. subst wa' wd'.
  split; [apply trim_nil_iff|]. split; [apply trim_nil_iff|].
  destruct (whitespace_only (Add.title a)) eqn:Ea;
    [ rewrite (add_save_rejected a wa Ea)
    | destruct (add_save_submitted a wa Ea) as (? & ? & ->) ];
    (destruct (whitespace_only (Detail.title d)) eqn:Ed;
     [ rewrite (detail_update_rejected taskId d wd Ed)
     | destruct (detail_update_submitted taskId d wd Ed) as (? & ? & ->) ]).
  all: autorewrite with obs; rewrite ?app_nil_r; repeat split; reflexivity.
Qed.

Lemma not_blank s : trim s <> [] -> whitespace_only s = false.
Proof.
  intros H. destruct (whitespace_only s) eqn:E; [|reflexivity].
  apply trim_nil_iff in E. contradiction.
Qed.

(** ** Creating a task *)

(** C7. A creation-form submission whose trimmed title is not empty sends
    one POST to the collection with the trimmed title and the trimmed
    description; when it succeeds the screen shows the success alert and
    navigates back; when it fails the error is logged and alerted, there is
    no navigation, and the title and description fields keep their
    contents. *)
Theorem C7_create_posts_trimmed_fields
        (s : Add.State) (w0 w : Add.Rt)
        (p : Pending Add.State Add.Callback) (i : nat) (srv : Server) :
  trim (Add.title s) <> [] ->
  pending (fire (Add.handleSaveTask s) w0) = pending w0 ++ [p] ->
  nth_error (pending w) i = Some p ->
  sent (fire (Add.handleSaveTask s) w0)
  = sent w0 ++ [axios_post API_URL (add_body s)] /\
  p_req p = axios_post API_URL (add_body s) /\
  match srv (p_req p) with
  | inr _ => calls (respond i srv w) = calls w ++ [add_saved; navigation_goBack]
  | inl e =>
      calls (respond i srv w)
      = calls w ++ [console_error "Save Error:" e; add_failed]
      /\ Add.title (state (respond i srv w)) = Add.title (state w)
      /\ Add.description (state (respond i srv w)) = Add.description (state w)
  end.
Proof.
  intros Ht Hp Hi. apply not_blank in Ht.
  unfold Add.handleSaveTask in *. rewrite truthy_trim, Ht in *.
  cbn in Hp. apply app_inv_head in Hp. injection Hp as <-.
  split. { observe. reflexivity. }
  split. { reflexivity. }
  unfold respond. rewrite Hi. cbn.
  destruct (srv _) as [e|d]; observe; repeat split; reflexivity.
Qed.

(** The "Buy milk" scenario: the title is typed with spaces around it, the
    description is left empty, the server accepts. *)
Lemma C7_buy_milk :
  let w0 := Add.run [Add.ChangeTitle (lit "  Buy milk ")] Add.initial in
  let w := Add.step Add.PressSave w0 in
  trim (Add.title (state w0)) <> [] /\
  sent w = [axios_post API_URL (mkBody (Some (lit "Buy milk")) (Some []) None)] /\
  calls (Add.step (Add.Respond 0 (answering [] (Api.mkTask 0 [] None false []))) w)
  = [add_saved; navigation_goBack].
Proof.
  intros w0 w.
  assert (Ht : trim (Add.title (state w0)) <> []) by (vm_compute; discriminate).
  split; [exact Ht|].
  assert (exists p, pending (fire (Add.handleSaveTask (state w0)) w0)
                    = pending w0 ++ [p]
                    /\ nth_error (pending w) 0 = Some p) as (p & Hp & Hi)
    by (eexists; split; cbv; reflexivity).
  destruct (C7_create_posts_trimmed_fields (state w0) w0 w p 0
              (answering [] (Api.mkTask 0 [] None false [])) Ht Hp Hi)
    as (Hs & Hr & Hk).
  rewrite Hr in Hk. split; [exact Hs | exact Hk].
Defined.

(** ** Saving from the detail screen *)

(** C6. A save on the detail screen whose trimmed title is not empty sends
    one PUT to the task's URL carrying the trimmed title, the trimmed
    description and the completion switch; when it succeeds the success
    alert is shown and the screen navigates back; when it fails the error
    is logged and alerted, nothing navigates, the draft is kept, and
    [saving] is false again. *)
Theorem C6_update_sends_all_fields
        (taskId : Z) (s : Detail.State) (w0 w : Detail.Rt)
        (p : Pending Detail.State Detail.Callback) (i : nat) (srv : Server) :
  trim (Detail.title s) <> [] ->
  pending (fire (Detail.handleUpdateTask taskId s) w0) = pending w0 ++ [p] ->
  nth_error (pending w) i = Some p ->
  sent (fire (Detail.handleUpdateTask taskId s) w0)
  = sent w0 ++ [axios_put (Detail.item_url taskId) (detail_body s)] /\
  p_req p = axios_put (Detail.item_url taskId) (detail_body s) /\
  match srv (p_req p) with
  | inr _ =>
      calls (respond i srv w) = calls w ++ [detail_saved; navigation_goBack]
      /\ Detail.saving (state (respond i srv w)) = false
  | inl e =>
      calls (respond i srv w)
      = calls w ++ [console_error "Update Error:" e; detail_failed]
      /\ Detail.saving (state (respond i srv w)) = false
      /\ Detail.title (state (respond i srv w)) = Detail.title (state w)
      /\ Detail.description (state (respond i srv w)) = Detail.description (state w)
      /\ Detail.isCompleted (state (respond i srv w)) = Detail.isCompleted (state w)
      /\ Detail.loading (state (respond i srv w)) = Detail.loading (state w)
  end.
Proof.
  intros Ht Hp Hi. apply not_blank in Ht.
  unfold Detail.handleUpdateTask in *. rewrite truthy_trim, Ht in *.
  cbn in Hp. apply app_inv_head in Hp. injection Hp as <-.
  split. { observe. reflexivity. }
  split. { reflexivity. }
  unfold respond. rewrite Hi. cbn.
  destruct (srv _) as [e|d]; observe; repeat split; reflexivity.
Qed.

(** The scenario of task 42: the detail arrives as
    [{id: 42, title: "X", isCompleted: false}], the fields are filled from
    it, the switch is turned on and the form is saved. *)
Lemma C6_task_42 :
  let fetched := Api.mkTask 42 (lit "X") None false (lit "2024-01-01") in
  let srv := answering [] fetched in
  let w0 := Detail.run 42 [Detail.Respond 0 srv; Detail.SwitchCompleted true]
                       (Detail.mount 42) in
  let w := Detail.step 42 Detail.PressUpdate w0 in
  state w0 = Detail.mkState (lit "X") [] true false false /\
  trim (Detail.title (state w0)) <> [] /\
  in_flight w = [axios_put (Detail.item_url 42)
                   (mkBody (Some (lit "X")) (Some []) (Some true))] /\
  calls (Detail.step 42 (Detail.Respond 0 srv) w) = [detail_saved; navigation_goBack].
Proof.
  intros fetched srv w0 w.
  assert (Ht : trim (Detail.title (state w0)) <> []) by (vm_compute; discriminate).
  assert (exists p, pending (fire (Detail.handleUpdateTask 42 (state w0)) w0)
                    = pending w0 ++ [p]
                    /\ nth_error (pending w) 0 = Some p) as (p & Hp & Hi)
    by (eexists; split; cbv; reflexivity).
  destruct (C6_update_sends_all_fields 42 (state w0) w0 w p 0 srv Ht Hp Hi)
    as (Hs & Hr & Hk).
  rewrite Hr in Hk. destruct Hk as [Hk _].
  split; [reflexivity|]. split; [exact Ht|]. split; [reflexivity | exact Hk].
Defined.

(** ** Loading the detail screen *)

(** Wherever the request parked by the mount's [fetchTask] is in flight,
    its failure is logged and alerted, the screen navigates back, and
    nothing is sent or scheduled. *)
Lemma failed_task_fetch
        (taskId : Z) (w : Detail.Rt)
        (p : Pending Detail.State Detail.Callback) (i : nat) (srv : Server)
        (e : Error) :
  pending (Detail.mount taskId) = [p] ->
  nth_error (pending w) i = Some p ->
  srv (p_req p) = inl e ->
  sent (Detail.mount taskId) = [axios_get TaskObject (Detail.item_url taskId)] /\
  calls (respond i srv w)
  = calls w ++ [console_error "Fetch Detail Error:" e; detail_load_failed;
                navigation_goBack] /\
  sent (respond i srv w) = sent w /\
  pending (respond i srv w) = remove_nth i (pending w) /\
  timers (respond i srv w) = timers w /\
  Detail.loading (state (respond i srv w)) = false.
Proof.
  intros Hp Hi He.
  cbn in Hp. injection Hp as <-.
  split. { reflexivity. }
  unfold respond. rewrite Hi. cbn in *. rewrite He. cbn.
  observe. repeat split; reflexivity.
Qed.

(** ** The list screen: what the two async functions do when they settle *)

(** The refresh gesture and the focus listener run the same [fetchTasks],
    so they park the same continuation as a direct call. *)
Lemma refresh_parks_fetch (s : Home.State) (w : Home.Rt) :
  pending (fire (Home.handleRefresh s) w)
  = pending (fire (Home.fetchTasks (Home.searchText s)) w).
Proof. reflexivity. Qed.

(** Wherever the request parked by [fetchTasks] is in flight, its failure
    is logged and caught, and leaves the tasks alone. *)
Lemma failed_fetch_keeps_list
      (query : jsstring) (w0 w : Home.Rt)
      (p : Pending Home.State Home.Callback) (i : nat) (srv : Server)
      (e : Error) :
  pending (fire (Home.fetchTasks query) w0) = pending w0 ++ [p] ->
  nth_error (pending w) i = Some p ->
  srv (p_req p) = inl e ->
  Home.tasks (state (respond i srv w)) = Home.tasks (state w) /\
  calls (respond i srv w) = calls w ++ [console_error "Error fetching tasks:" e] /\
  unhandled (respond i srv w) = unhandled w.
Proof.
  intros Hp Hi He. pin Hp.
  unfold respond. rewrite Hi. cbn in *. rewrite He. cbn.
  observe. repeat split; reflexivity.
Qed.

(** [handleToggleStatus] changes nothing before its PUT settles; a failure
    is logged and changes nothing either; a success maps the list. *)
Lemma toggle_settles
      (id : Z) (status : bool) (w0 w : Home.Rt)
      (p : Pending Home.State Home.Callback) (i : nat) (srv : Server) :
  pending (fire (Home.handleToggleStatus id status) w0) = pending w0 ++ [p] ->
  nth_error (pending w) i = Some p ->
  state (fire (Home.handleToggleStatus id status) w0) = state w0 /\
  p_req p = axios_put (Home.item_url id) (toggle_body status) /\
  match srv (p_req p) with
  | inl e =>
      state (respond i srv w) = state w
      /\ calls (respond i srv w)
         = calls w ++ [console_error "Error updating status:" e]
  | inr _ =>
      Home.tasks (state (respond i srv w)) = toggled id status (Home.tasks (state w))
  end.
Proof.
  intros Hp Hi. pin Hp.
  split. { reflexivity. }
  split. { reflexivity. }
  unfold respond. rewrite Hi. cbn.
  destruct (srv _) as [e|d]; observe.
  - destruct (state w). split; reflexivity.
  - reflexivity.
Qed.

(** ** The search debounce *)

Section Advance.
Variables St Cb : Type.
Variable run : Cb -> World St Cb -> World St Cb.

Lemma advance_idle (w : World St Cb) ms :
  timers w = [] -> advance run ms w = set_clock (clock w + ms) w.
Proof. intros H. unfold advance. rewrite H. destruct w; cbn in *. now subst. Qed.

Lemma advance_not_due (w : World St Cb) tm ms :
  timers w = [tm] -> clock w + ms < due tm ->
  advance run ms w = set_clock (clock w + ms) w.
Proof.
  intros H Hlt. unfold advance. rewrite H. cbn.
  destruct (Nat.leb_spec (due tm) (clock w + ms)); [lia|]. cbn.
  destruct w; cbn in *. now subst.
Qed.

Lemma advance_due (w : World St Cb) tm ms :
  timers w = [tm] -> clock w < due tm -> due tm <= clock w + ms ->
  advance run ms w
  = set_clock (clock w + ms)
      (run (callback tm) (set_clock (due tm) (set_timers [] w))).
Proof.
  intros H Hlt Hle. unfold advance. rewrite H. cbn.
  destruct (Nat.leb_spec (due tm) (clock w + ms)); [|lia]. cbn.
  unfold run_timer. cbn. rewrite Nat.max_r by lia. reflexivity.
Qed.
End Advance.

Lemma change_arms (m : Home.Screen) (v : jsstring) :
  debounce_inv m ->
  v <> Home.searchText (state (Home.world m)) ->
  let m' := Home.step (Home.ChangeText v) m in
  armed m' v (clock (Home.world m) + 300)
  /\ trace (Home.world m') = trace (Home.world m)
  /\ pending (Home.world m') = pending (Home.world m)
  /\ clock (Home.world m') = clock (Home.world m)
  /\ Home.searchText (state (Home.world m')) = v.
Proof.
  intros Hinv Hv m'. subst m'. apply eqb_neq in Hv.
  unfold Home.step. rewrite Hv.
  destruct m as [w c]. unfold Home.rerun_search_effect, Home.on_world. cbn in *.
  destruct Hinv as [(h & Hc & Ht) | (q & t & h & Hc & Ht & Hlt)]; cbn in *; subst c.
  - cbn. unfold del_timer. cbn. rewrite Ht. cbn.
    repeat split; try reflexivity. eexists. repeat split. cbn. lia.
  - cbn. unfold del_timer. cbn. rewrite Ht. cbn. rewrite Nat.eqb_refl. cbn.
    repeat split; try reflexivity. eexists. repeat split. cbn. lia.
Qed.

Lemma elapse_short (m : Home.Screen) q t gap :
  armed m q t -> clock (Home.world m) + gap < t ->
  let m' := Home.step (Home.Elapse gap) m in
  armed m' q t
  /\ trace (Home.world m') = trace (Home.world m)
  /\ pending (Home.world m') = pending (Home.world m)
  /\ clock (Home.world m') = clock (Home.world m) + gap
  /\ state (Home.world m') = state (Home.world m).
Proof.
  intros (h & Hc & Ht & Hlt) Hg.
  unfold Home.step, Home.on_world, armed. cbn [Home.world Home.cleanup].
  rewrite (advance_not_due _ _ _ _ _ _ Ht) by exact Hg. cbn.
  repeat split; try reflexivity. exists h. auto.
Qed.

Lemma elapse_fires (m : Home.Screen) q t ms :
  armed m q t -> t <= clock (Home.world m) + ms ->
  let m' := Home.step (Home.Elapse ms) m in
  quiet m'
  /\ trace (Home.world m')
     = trace (Home.world m) ++ [(t, Sent (axios_get TaskArray (Home.list_url q)))]
  /\ clock (Home.world m') = clock (Home.world m) + ms.
Proof.
  intros (h & Hc & Ht & Hlt) Hg.
  unfold Home.step, Home.on_world, quiet. cbn [Home.world Home.cleanup].
  rewrite (advance_due _ _ _ _ _ _ Ht) by assumption. cbn.
  repeat split; try reflexivity. exists h. auto.
Qed.

Lemma last_cons_default {X} (l : list X) : forall x d, last (x :: l) d = last l x.
Proof.
  induction l as [|a l IH]; intros x d; [reflexivity|].
  change (last (x :: a :: l) d) with (last (a :: l) d).
  now rewrite (IH a d), (IH a x).
Qed.

Lemma typing_keeps_armed rest : forall (m : Home.Screen) v,
  armed m v (clock (Home.world m) + 300) ->
  Home.searchText (state (Home.world m)) = v ->
  changes v (List.map snd rest) ->
  Forall (fun g => fst g < 300) rest ->
  let m' := Home.run (typing rest) m in
  armed m' (last (List.map snd rest) v) (clock (Home.world m') + 300)
  /\ trace (Home.world m') = trace (Home.world m)
  /\ Home.searchText (state (Home.world m')) = last (List.map snd rest) v.
Proof.
  induction rest as [|[gap v1] r IH]; intros m v Ha Hs Hc Hg.
  - cbn. auto.
  - cbn in Hc. destruct Hc as [Hne Hc]. inversion Hg as [|? ? Hlt Hg']; subst.
    cbn in Hlt.
    destruct (elapse_short m _ _ gap Ha ltac:(lia)) as (Ha1 & Ht1 & _ & Hk1 & Hs1).
    set (m1 := Home.step (Home.Elapse gap) m) in *.
    assert (Hinv : debounce_inv m1) by (right; eauto).
    assert (Hne1 : v1 <> Home.searchText (state (Home.world m1)))
      by (rewrite Hs1; exact Hne).
    destruct (change_arms m1 v1 Hinv Hne1) as (Ha2 & Ht2 & _ & Hk2 & Hs2).
    set (m2 := Home.step (Home.ChangeText v1) m1) in *.
    rewrite <- Hk2 in Ha2.
    destruct (IH m2 v1 Ha2 Hs2 Hc Hg') as (Ha3 & Ht3 & Hs3).
    change (Home.run (typing ((gap, v1) :: r)) m) with (Home.run (typing r) m2).
    cbv zeta. cbn [List.map snd]. rewrite last_cons_default.
    repeat split; try assumption. congruence.
Qed.

Lemma Forall_remove_nth {X} (P : X -> Prop) (l : list X) : forall n,
  Forall P l -> Forall P (remove_nth n l).
Proof.
  induction l as [|x l IH]; intros [|n] H; cbn; auto; inversion H; subst; auto.
Qed.

Lemma debounce_inv_ext (m m' : Home.Screen) :
  Home.cleanup m' = Home.cleanup m ->
  timers (Home.world m') = timers (Home.world m) ->
  clock (Home.world m') = clock (Home.world m) ->
  debounce_inv m -> debounce_inv m'.
Proof.
  unfold debounce_inv, quiet, armed. intros -> -> ->. auto.
Qed.

Lemma fetch_keeps_inv (m : Home.Screen) q :
  home_inv m -> home_inv (Home.on_world (fire (Home.fetchTasks q)) m).
Proof.
  intros [Hd Hk]. split.
  - revert Hd. apply debounce_inv_ext; reflexivity.
  - cbn. apply Forall_app. split; [exact Hk|].
    constructor; [|constructor]. left. exists q, (Home.world m). reflexivity.
Qed.

Lemma home_inv_mount : home_inv Home.mount.
Proof.
  split; [|constructor]. right. exists [], 300, 0. cbn. repeat split. lia.
Qed.

Lemma home_inv_step (e : Home.Event) (m : Home.Screen) :
  home_inv m -> home_inv (Home.step e m).
Proof.
  intros Hinv. destruct e as [v| | |row|ms|i srv]; unfold Home.step.
  - destruct (Js.eqb v _) eqn:E; [exact Hinv|].
    apply eqb_neq in E. destruct Hinv as [Hd Hk].
    destruct (change_arms m v Hd E) as (Ha & _ & Hp & _).
    unfold Home.step in Ha, Hp. apply eqb_neq in E. rewrite E in Ha, Hp.
    split; [right; eauto | rewrite Hp; exact Hk].
  - now apply fetch_keeps_inv.
  - destruct (Home.list_shown _); [|exact Hinv].
    destruct Hinv as [Hd Hk]. split.
    + revert Hd. apply debounce_inv_ext; reflexivity.
    + cbn. apply Forall_app. split; [exact Hk|].
      constructor; [|constructor]. left.
      exists (Home.searchText (state (Home.world m))), (Home.world m). reflexivity.
  - destruct (Home.list_shown _); [|exact Hinv].
    destruct (nth_error _ row) as [task|]; [|exact Hinv].
    destruct Hinv as [Hd Hk]. split.
    + revert Hd. apply debounce_inv_ext; reflexivity.
    + cbn. apply Forall_app. split; [exact Hk|].
      constructor; [|constructor]. right.
      exists (Api.id task), (negb (Api.isCompleted task)), (Home.world m). reflexivity.
  - destruct Hinv as [[Hq | (q & t & Ha)] Hk].
    + destruct Hq as (h & Hc & Ht). unfold Home.on_world.
      rewrite (advance_idle _ _ _ _ _ Ht). split; [|exact Hk].
      left. exists h. auto.
    + destruct (Nat.lt_ge_cases (clock (Home.world m) + ms) t) as [Hlt|Hge].
      * destruct (elapse_short m q t ms Ha Hlt) as (Ha' & _ & Hp & _).
        split; [right; eauto | unfold Home.step in Hp; rewrite Hp; exact Hk].
      * destruct (elapse_fires m q t ms Ha Hge) as (Hq & _).
        split; [left; exact Hq|].
        destruct Ha as (h & Hc & Ht & Hlt). unfold Home.on_world.
        rewrite (advance_due _ _ _ _ _ _ Ht) by assumption. cbn.
        apply Forall_app. split; [exact Hk|].
        constructor; [|constructor]. left.
        exists q, (Home.world m). reflexivity.
  - destruct Hinv as [Hd Hk]. unfold Home.on_world, respond.
    destruct (nth_error (pending (Home.world m)) i) as [p|] eqn:E;
      [|split; assumption].
    assert (Hp : home_known p).
    { apply nth_error_In in E. rewrite Forall_forall in Hk. auto. }
    destruct Hp as [(q & w0 & Hp) | (id & status & w0 & Hp)]; pin Hp; cbn;
      destruct (srv _); cbn;
      (split; [revert Hd; apply debounce_inv_ext; reflexivity
              | cbn; apply Forall_remove_nth; exact Hk]).
Qed.

Lemma home_inv_run (es : list Home.Event) : forall m,
  home_inv m -> home_inv (Home.run es m).
Proof.
  induction es as [|e es IH]; intros m H; [exact H|].
  cbn. apply IH, home_inv_step, H.
Qed.

(** C3. From any state the list screen can reach, let the search text be
    changed several times, every change less than 300ms after the one
    before it. While the changes go on no fetch fires; and once [ms] more
    milliseconds have passed, nothing was fetched if [ms] is under 300 (the
    timer of the last change is still armed), and otherwise exactly one
    fetch was sent, 300ms after the last change, with the last search text,
    and no timer is left. *)
Theorem C3_debounce_fetches_once
        (es : list Home.Event) (v0 : jsstring) (rest : list (nat * jsstring))
        (ms : nat) :
  changes (Home.searchText (state (Home.world (Home.run es Home.mount))))
          (v0 :: List.map snd rest) ->
  Forall (fun g => fst g < 300) rest ->
  let m := Home.run es Home.mount in
  let m' := Home.run (Home.ChangeText v0 :: typing rest) m in
  let final := last (List.map snd rest) v0 in
  let fired := Home.world (Home.step (Home.Elapse ms) m') in
  Home.searchText (state (Home.world m')) = final /\
  trace (Home.world m') = trace (Home.world m) /\
  trace fired = trace (Home.world m) ++
    (if ms <? 300 then []
     else [(clock (Home.world m') + 300,
            Sent (axios_get TaskArray (Home.list_url final)))]) /\
  (if ms <? 300 then armed (Home.step (Home.Elapse ms) m') final
                           (clock (Home.world m') + 300)
   else timers fired = []).
Proof.
  intros [Hne Hc] Hg m m' final fired.
  assert (Hinv : debounce_inv m) by apply (home_inv_run es _ home_inv_mount).
  destruct (change_arms m v0 Hinv Hne) as (Ha1 & Ht1 & _ & Hk1 & Hs1).
  set (m1 := Home.step (Home.ChangeText v0) m) in *.
  rewrite <- Hk1 in Ha1.
  destruct (typing_keeps_armed rest m1 v0 Ha1 Hs1 Hc Hg) as (Ha & Ht & Hs).
  change (Home.run (typing rest) m1) with m' in *. fold final in Ha, Hs.
  split; [exact Hs|]. split; [congruence|].
  subst fired. destruct (Nat.ltb_spec ms 300) as [Hlt|Hge].
  - destruct (elapse_short m' _ _ ms Ha ltac:(lia)) as (Ha' & Ht' & _).
    rewrite Ht', app_nil_r. split; [congruence | exact Ha'].
  - destruct (elapse_fires m' _ _ ms Ha ltac:(lia)) as ((h & _ & Hq) & Ht' & _).
    rewrite Ht'. split; [congruence | exact Hq].
Qed.

(** One second after the first list arrived, "a", "ab" and "abc" are typed
    50ms apart; 300ms after the last of them one fetch for "abc" has been
    sent, at 1700ms. *)
Lemma C3_typing_abc :
  let es := [Home.Elapse 300; Home.Respond 0 (answering [milk] milk);
             Home.Elapse 1000] in
  let rest := [(50, lit "ab"); (50, lit "abc")] in
  let m := Home.run es Home.mount in
  let m' := Home.run (Home.ChangeText (lit "a") :: typing rest) m in
  changes (Home.searchText (state (Home.world m))) (lit "a" :: List.map snd rest) /\
  Forall (fun g => fst g < 300) rest /\
  trace (Home.world m') = trace (Home.world m) /\
  trace (Home.world (Home.step (Home.Elapse 300) m'))
  = trace (Home.world m) ++
    [(1700, Sent (axios_get TaskArray (Home.list_url (lit "abc"))))].
Proof.
  intros es rest m m'.
  assert (Hc : changes (Home.searchText (state (Home.world (Home.run es Home.mount))))
                       (lit "a" :: List.map snd rest))
    by (vm_compute; repeat split; discriminate).
  assert (Hg : Forall (fun g => fst g < 300) rest)
    by (repeat constructor; cbn; lia).
  destruct (C3_debounce_fetches_once es (lit "a") rest 300 Hc Hg)
    as (_ & H2 & H3 & _).
  split; [exact Hc|]. split; [exact Hg|]. split; [exact H2 | exact H3].
Defined.

(** ** The list screen: failed fetches and toggles *)

Lemma in_flight_pending {St Cb} (w : World St Cb) i r :
  nth_error (in_flight w) i = Some r ->
  exists p, nth_error (pending w) i = Some p /\ p_req p = r.
Proof.
  unfold in_flight. rewrite nth_error_map.
  destruct (nth_error (pending w) i) as [p|]; [|discriminate].
  intros [= <-]. eauto.
Qed.

Lemma home_in_flight_known (es : list Home.Event) i p :
  nth_error (pending (Home.world (Home.run es Home.mount))) i = Some p ->
  home_known p.
Proof.
  intros Hp. destruct (home_inv_run es _ home_inv_mount) as [_ Hk].
  rewrite Forall_forall in Hk. apply Hk. eapply nth_error_In; eauto.
Qed.

(** C5. In every state the list screen can reach, when a GET in flight (a
    list fetch, whatever triggered it) fails, the error is logged with
    [console.error], the tasks shown are exactly the ones shown before, and
    the rejection is caught: no unhandled rejection is recorded. *)
Theorem C5_failed_fetch_keeps_list
        (es : list Home.Event) (i : nat) (srv : Server) (r : Request) (e : Error) :
  nth_error (in_flight (Home.world (Home.run es Home.mount))) i = Some r ->
  is_get r = true ->
  srv r = inl e ->
  let m := Home.run es Home.mount in
  let m' := Home.step (Home.Respond i srv) m in
  Home.tasks (state (Home.world m')) = Home.tasks (state (Home.world m)) /\
  calls (Home.world m')
  = calls (Home.world m) ++ [console_error "Error fetching tasks:" e] /\
  unhandled (Home.world m') = unhandled (Home.world m).
Proof.
  intros Hi Hg He m m'. fold m in Hi.
  destruct (in_flight_pending _ _ _ Hi) as (p & Hp & <-).
  destruct (home_in_flight_known es i p Hp)
    as [(q & w0 & Hq) | (id & status & w0 & Hq)].
  - exact (failed_fetch_keeps_list q w0 (Home.world m) p i srv e Hq Hp He).
  - pin Hq. discriminate.
Qed.

(** The list holds one task; a pull-to-refresh then fails with a 500. *)
Lemma C5_refresh_fails :
  let es := [Home.Elapse 300; Home.Respond 0 (answering [milk] milk); Home.Refresh] in
  let m := Home.run es Home.mount in
  let m' := Home.step (Home.Respond 0 (failing (HttpStatus 500))) m in
  nth_error (in_flight (Home.world m)) 0
  = Some (axios_get TaskArray (Home.list_url [])) /\
  Home.tasks (state (Home.world m)) = [milk] /\
  Home.tasks (state (Home.world m')) = [milk] /\
  unhandled (Home.world m') = [].
Proof.
  intros es m m'.
  assert (Hi : nth_error (in_flight (Home.world (Home.run es Home.mount))) 0
               = Some (axios_get TaskArray (Home.list_url []))) by reflexivity.
  destruct (C5_failed_fetch_keeps_list es 0 (failing (HttpStatus 500)) _
              (HttpStatus 500) Hi eq_refl eq_refl) as (H1 & _ & H3).
  split; [exact Hi|]. split; [reflexivity|]. split; [exact H1 | exact H3].
Defined.

(** C9. In every state the list screen can reach, a toggle changes nothing
    of the state before its PUT settles, and when a PUT in flight fails the
    whole state, the tasks list included, is left as it was and the error
    is logged: the list is only changed once the PUT has succeeded. *)
Theorem C9_failed_toggle_leaves_list
        (es : list Home.Event) (i : nat) (srv : Server) (r : Request) (e : Error) :
  nth_error (in_flight (Home.world (Home.run es Home.mount))) i = Some r ->
  is_put r = true ->
  srv r = inl e ->
  let m := Home.run es Home.mount in
  let m' := Home.step (Home.Respond i srv) m in
  (forall id status,
      state (fire (Home.handleToggleStatus id status) (Home.world m))
      = state (Home.world m)) /\
  state (Home.world m') = state (Home.world m) /\
  calls (Home.world m')
  = calls (Home.world m) ++ [console_error "Error updating status:" e].
Proof.
  intros Hi Hg He m m'. fold m in Hi.
  split; [reflexivity|].
  destruct (in_flight_pending _ _ _ Hi) as (p & Hp & <-).
  destruct (home_in_flight_known es i p Hp)
    as [(q & w0 & Hq) | (id & status & w0 & Hq)].
  - pin Hq. discriminate.
  - destruct (toggle_settles id status w0 (Home.world m) p i srv Hq Hp)
      as (_ & _ & H). rewrite He in H. exact H.
Qed.

(** The list holds one open task; its checkbox is tapped and the PUT
    fails. *)
Lemma C9_toggle_milk_fails :
  let es := [Home.Elapse 300; Home.Respond 0 (answering [milk] milk);
             Home.PressToggle 0] in
  let m := Home.run es Home.mount in
  let m' := Home.step (Home.Respond 0 (failing NetworkError)) m in
  nth_error (in_flight (Home.world m)) 0
  = Some (axios_put (Home.item_url 1) (toggle_body true)) /\
  state (Home.world m') = state (Home.world m) /\
  Home.tasks (state (Home.world m')) = [milk].
Proof.
  intros es m m'.
  assert (Hi : nth_error (in_flight (Home.world (Home.run es Home.mount))) 0
               = Some (axios_put (Home.item_url 1) (toggle_body true)))
    by reflexivity.
  destruct (C9_failed_toggle_leaves_list es 0 (failing NetworkError) _
              NetworkError Hi eq_refl eq_refl) as (_ & H2 & _).
  split; [exact Hi|]. split; [exact H2 | reflexivity].
Defined.

(** C1. After a toggle of the first row and before any response to its
    PUT, the request is in flight and the row still shows the old
    [isCompleted]; the list changes only once the PUT has succeeded. *)
Theorem C1_toggle_waits_for_response :
  let m := Home.run [Home.Elapse 300; Home.Respond 0 (answering [milk] milk)]
                    Home.mount in
  let m1 := Home.step (Home.PressToggle 0) m in
  let m2 := Home.step (Home.Respond 0 (answering [] milk)) m1 in
  Home.tasks (state (Home.world m)) = [milk] /\
  in_flight (Home.world m1) = [axios_put (Home.item_url 1) (toggle_body true)] /\
  Home.tasks (state (Home.world m1)) = [milk] /\
  Home.tasks (state (Home.world m2)) = [Api.with_isCompleted milk true].
Proof. vm_compute. repeat split; reflexivity. Qed.

(** ** One submission at a time, and the confirmed delete *)

Lemma add_known_post p : add_known p -> is_post (p_req p) = true.
Proof.
  intros (s & w0 & Hs & Hp). unfold Add.handleSaveTask in Hp.
  rewrite truthy_trim, Hs in Hp. pin Hp. reflexivity.
Qed.

Lemma add_inv_initial : add_inv Add.initial.
Proof. reflexivity. Qed.

Lemma add_inv_step (e : Add.Event) (w : Add.Rt) :
  add_inv w -> add_inv (Add.step e w).
Proof.
  unfold add_inv. intros Hinv.
  destruct e as [v|v| | |i j|i srv]; unfold Add.step.
  - cbn. exact Hinv.
  - cbn. exact Hinv.
  - destruct (Add.loading (state w)) eqn:El.
    + rewrite El. exact Hinv.
    + destruct (whitespace_only (Add.title (state w))) eqn:Ews.
      * rewrite (add_save_rejected _ _ Ews). autorewrite with obs.
        rewrite El. exact Hinv.
      * unfold Add.handleSaveTask. rewrite truthy_trim, Ews. cbn.
        rewrite Hinv. cbn. eexists. split; [reflexivity|].
        exists (state w), w. split; [exact Ews|].
        unfold Add.handleSaveTask. rewrite truthy_trim, Ews. cbn.
        rewrite Hinv. reflexivity.
  - cbn. exact Hinv.
  - unfold choose. destruct (nth_error (dialogs w) i) as [bs|]; [|exact Hinv].
    destruct (nth_error bs j) as [b|]; [|exact Hinv].
    destruct (onPress b) as [[]|]. exact Hinv.
  - unfold respond.
    destruct (nth_error (pending w) i) as [p|] eqn:E; [|exact Hinv].
    destruct (Add.loading (state w)) eqn:El.
    + destruct Hinv as (p' & Hp' & Hk). rewrite Hp' in *.
      destruct i as [|i]; [|destruct i; discriminate].
      injection E as ->. destruct Hk as (s & w0 & Hs & Hp).
      unfold Add.handleSaveTask in Hp. rewrite truthy_trim, Hs in Hp. pin Hp.
      cbn. destruct (srv _); reflexivity.
    + rewrite Hinv in E. destruct i; discriminate.
Qed.

Lemma add_inv_run (es : list Add.Event) : forall w,
  add_inv w -> add_inv (Add.run es w).
Proof.
  induction es as [|e es IH]; intros w H; [exact H|].
  cbn. apply IH, add_inv_step, H.
Qed.

Lemma count_app f l1 l2 : count f (l1 ++ l2) = count f l1 + count f l2.
Proof. unfold count. now rewrite filter_app, length_app. Qed.

Lemma count_remove_nth f (l : list Request) : forall i r,
  nth_error l i = Some r ->
  count f (remove_nth i l) + (if f r then 1 else 0) = count f l.
Proof.
  unfold count.
  induction l as [|x l IH]; intros [|i] r H; cbn in *; try discriminate.
  - injection H as ->. destruct (f r); cbn; lia.
  - specialize (IH i r H). destruct (f x); cbn; lia.
Qed.

Lemma map_remove_nth {X Y} (g : X -> Y) (l : list X) : forall i,
  List.map g (remove_nth i l) = remove_nth i (List.map g l).
Proof.
  induction l as [|x l IH]; intros [|i]; cbn; try reflexivity. now rewrite IH.
Qed.

Lemma detail_inv_mount taskId : detail_inv taskId (Detail.mount taskId).
Proof.
  repeat split.
  - constructor; [|constructor]. left. exists Detail.initial. reflexivity.
  - constructor.
Qed.

Lemma detail_inv_respond taskId (w : Detail.Rt) i srv :
  detail_inv taskId w -> detail_inv taskId (respond i srv w).
Proof.
  intros (Hk & Hc & Hd). unfold respond.
  destruct (nth_error (pending w) i) as [p|] eqn:E; [|repeat split; assumption].
  assert (Hp : detail_known taskId p).
  { apply nth_error_In in E. rewrite Forall_forall in Hk. auto. }
  assert (Er : nth_error (in_flight w) i = Some (p_req p)).
  { unfold in_flight. now rewrite nth_error_map, E. }
  pose proof (count_remove_nth is_put _ _ _ Er) as Hn.
  rewrite Hc in Hn.
  assert (Hk' : Forall (detail_known taskId) (remove_nth i (pending w)))
    by now apply Forall_remove_nth.
  assert (Hd' : forall bs, bs = [] ->
            Forall (fun bs => bs = [] \/ bs = prompt_buttons) (dialogs w ++ [bs])).
  { intros bs ->. apply Forall_app. split; [exact Hd|]. constructor; auto. }
  unfold detail_inv, in_flight in *. rewrite <- map_remove_nth in Hn.
  destruct Hp as [(w0 & Hp) | [(s & w0 & Hs & Hp) | (w0 & Hp)]].
  - pin Hp. cbn in *. destruct (srv _); cbn;
      (split; [exact Hk'|]); (split; [lia | auto]).
  - unfold Detail.handleUpdateTask in Hp. rewrite truthy_trim, Hs in Hp. pin Hp.
    cbn in *. destruct (srv _); cbn;
      (split; [exact Hk'|]); (split; [destruct (Detail.saving (state w)); lia | auto]).
  - pin Hp. cbn in *. destruct (srv _); cbn;
      (split; [exact Hk'|]); (split; [lia | auto]).
Qed.

Lemma detail_inv_state taskId (w : Detail.Rt) (f : Detail.State -> Detail.State) :
  (forall s, Detail.saving (f s) = Detail.saving s) ->
  detail_inv taskId w -> detail_inv taskId (upd_state f w).
Proof.
  intros Hf (Hk & Hc & Hd). unfold detail_inv. cbn. rewrite Hf. auto.
Qed.

Lemma detail_inv_perform taskId (w : Detail.Rt) e :
  match e with
  | Alert_alert _ _ bs => bs = [] \/ bs = prompt_buttons
  | _ => True
  end ->
  detail_inv taskId w -> detail_inv taskId (perform e w).
Proof.
  intros He (Hk & Hc & Hd). unfold detail_inv.
  destruct e; cbn; repeat split; try assumption.
  apply Forall_app. split; [exact Hd|]. constructor; auto.
Qed.

Lemma detail_inv_delete taskId (w : Detail.Rt) :
  detail_inv taskId w -> detail_inv taskId (fire (Detail.performDelete taskId) w).
Proof.
  intros (Hk & Hc & Hd). unfold detail_inv, in_flight in *. cbn.
  split; [|split; [|exact Hd]].
  - apply Forall_app. split; [exact Hk|]. constructor; [|constructor].
    right. right. exists w. reflexivity.
  - rewrite map_app, count_app, Hc. unfold count. cbn. lia.
Qed.

Lemma detail_inv_close taskId (w : Detail.Rt) i :
  detail_inv taskId w -> detail_inv taskId (set_dialogs (remove_nth i (dialogs w)) w).
Proof.
  intros (Hk & Hc & Hd). unfold detail_inv. cbn.
  repeat split; try assumption. now apply Forall_remove_nth.
Qed.

Lemma detail_inv_step taskId (e : Detail.Event) (w : Detail.Rt) :
  detail_inv taskId w -> detail_inv taskId (Detail.step taskId e w).
Proof.
  intros Hinv.
  destruct e as [v|v|v| | | |i j|i srv]; unfold Detail.step.
  - destruct (Detail.loading _); [exact Hinv|].
    apply (detail_inv_state taskId w); auto.
  - destruct (Detail.loading _); [exact Hinv|].
    apply (detail_inv_state taskId w); auto.
  - destruct (Detail.loading _); [exact Hinv|].
    apply (detail_inv_state taskId w); auto.
  - destruct (Detail.loading _); [exact Hinv|]. cbn [orb].
    destruct (Detail.saving (state w)) eqn:Es; [exact Hinv|].
    destruct (whitespace_only (Detail.title (state w))) eqn:Ews.
    + rewrite (detail_update_rejected _ _ _ Ews).
      apply detail_inv_perform; [left; reflexivity | exact Hinv].
    + destruct Hinv as (Hk & Hc & Hd). rewrite Es in Hc.
      unfold Detail.handleUpdateTask. rewrite truthy_trim, Ews. cbn.
      unfold detail_inv, in_flight in *. cbn.
      split; [|split; [|exact Hd]].
      * apply Forall_app. split; [exact Hk|]. constructor; [|constructor].
        right; left. exists (state w), w. split; [exact Ews|].
        unfold Detail.handleUpdateTask. rewrite truthy_trim, Ews. reflexivity.
      * rewrite map_app, count_app, Hc. reflexivity.
  - destruct (Detail.loading _); [exact Hinv|].
    apply (detail_inv_perform taskId w delete_prompt); [right; reflexivity | exact Hinv].
  - destruct (Detail.loading _); [exact Hinv|].
    apply (detail_inv_perform taskId w navigation_goBack); [exact I | exact Hinv].
  - unfold choose. destruct (nth_error (dialogs w) i) as [bs|] eqn:E; [|exact Hinv].
    assert (Hbs : bs = [] \/ bs = prompt_buttons).
    { destruct Hinv as (_ & _ & Hd). rewrite Forall_forall in Hd.
      apply Hd. eapply nth_error_In; eauto. }
    pose proof (detail_inv_close taskId w i Hinv) as Hc.
    destruct Hbs as [-> | ->].
    + destruct j; exact Hc.
    + destruct j as [|[|j]]; cbn.
      * exact Hc.
      * apply detail_inv_delete, Hc.
      * destruct j; exact Hc.
  - apply detail_inv_respond, Hinv.
Qed.

Lemma detail_inv_run taskId (es : list Detail.Event) : forall w,
  detail_inv taskId w -> detail_inv taskId (Detail.run taskId es w).
Proof.
  induction es as [|e es IH]; intros w H; [exact H|].
  cbn. apply IH, detail_inv_step, H.
Qed.

Lemma add_respond_clears (w : Add.Rt) i srv :
  add_inv w ->
  Add.loading (state (respond i srv w))
  = match nth_error (in_flight w) i with
    | Some _ => false
    | None => Add.loading (state w)
    end.
Proof.
  unfold add_inv, in_flight, respond. intros Hinv.
  rewrite nth_error_map.
  destruct (nth_error (pending w) i) as [p|] eqn:E; [|reflexivity].
  destruct (Add.loading (state w)) eqn:El.
  - destruct Hinv as (p' & Hp' & Hk). rewrite Hp' in *.
    destruct i as [|i]; [|destruct i; discriminate].
    injection E as ->. destruct Hk as (s & w0 & Hs & Hp).
    unfold Add.handleSaveTask in Hp. rewrite truthy_trim, Hs in Hp. pin Hp.
    cbn. destruct (srv _); reflexivity.
  - rewrite Hinv in E. destruct i; discriminate.
Qed.

Lemma detail_respond_clears taskId (w : Detail.Rt) i srv :
  detail_inv taskId w ->
  Detail.saving (state (respond i srv w))
  = match nth_error (in_flight w) i with
    | Some r => if is_put r then false else Detail.saving (state w)
    | None => Detail.saving (state w)
    end.
Proof.
  unfold in_flight, respond. intros (Hk & _ & _).
  rewrite nth_error_map.
  destruct (nth_error (pending w) i) as [p|] eqn:E; [|reflexivity].
  assert (Hp : detail_known taskId p).
  { apply nth_error_In in E. rewrite Forall_forall in Hk. auto. }
  destruct Hp as [(w0 & Hp) | [(s & w0 & Hs & Hp) | (w0 & Hp)]].
  - pin Hp. cbn. destruct (srv _); reflexivity.
  - unfold Detail.handleUpdateTask in Hp. rewrite truthy_trim, Hs in Hp. pin Hp.
    cbn. destruct (srv _); reflexivity.
  - pin Hp. cbn. destruct (srv _); reflexivity.
Qed.

(** C10. In every state the creation screen can reach, a POST is in flight
    exactly while [loading] is true, never more than one, and then a press
    of the disabled save button does nothing; whichever way the request in
    flight settles, [loading] is false afterwards. The same holds on the
    detail screen for the PUT of the update button and [saving]. *)
Theorem C10_one_submission_in_flight
        (taskId : Z) (ea : list Add.Event) (ed : list Detail.Event)
        (i : nat) (srv : Server) :
  let a := Add.run ea Add.initial in
  let d := Detail.run taskId ed (Detail.mount taskId) in
  count is_post (in_flight a) = (if Add.loading (state a) then 1 else 0) /\
  (if Add.loading (state a) then Add.step Add.PressSave a = a else True) /\
  Add.loading (state (Add.step (Add.Respond i srv) a))
  = match nth_error (in_flight a) i with
    | Some _ => false
    | None => Add.loading (state a)
    end /\
  count is_put (in_flight d) = (if Detail.saving (state d) then 1 else 0) /\
  (if Detail.saving (state d)
   then Detail.step taskId Detail.PressUpdate d = d else True) /\
  Detail.saving (state (Detail.step taskId (Detail.Respond i srv) d))
  = match nth_error (in_flight d) i with
    | Some r => if is_put r then false else Detail.saving (state d)
    | None => Detail.saving (state d)
    end.
Proof.
  intros a d.
  assert (Ha : add_inv a) by apply (add_inv_run ea _ add_inv_initial).
  assert (Hd : detail_inv taskId d)
    by apply (detail_inv_run taskId ed _ (detail_inv_mount taskId)).
  split; [|split; [|split; [|split; [|split]]]].
  - unfold add_inv, in_flight in *. destruct (Add.loading (state a)).
    + destruct Ha as (p & -> & Hk). apply add_known_post in Hk.
      unfold count. cbn. now rewrite Hk.
    + now rewrite Ha.
  - unfold Add.step. destruct (Add.loading (state a)); auto.
  - apply add_respond_clears, Ha.
  - apply Hd.
  - unfold Detail.step. destruct (Detail.saving (state d)); [|exact I].
    now rewrite orb_true_r.
  - apply (detail_respond_clears taskId), Hd.
Qed.

Ltac no_delete :=
  unfold deletes; observe; rewrite ?filter_app; cbn; rewrite ?app_nil_r; reflexivity.

Lemma detail_step_deletes taskId (e : Detail.Event) (w : Detail.Rt) :
  detail_inv taskId w ->
  deletes (Detail.step taskId e w) = deletes w \/
  exists i, e = Detail.Choose i 1
            /\ nth_error (dialogs w) i = Some prompt_buttons
            /\ sent (Detail.step taskId e w)
               = sent w ++ [axios_delete (Detail.item_url taskId)].
Proof.
  intros Hinv.
  destruct e as [v|v|v| | | |i j|i srv]; unfold Detail.step.
  - left. destruct (Detail.loading _); reflexivity.
  - left. destruct (Detail.loading _); reflexivity.
  - left. destruct (Detail.loading _); reflexivity.
  - left. destruct (Detail.loading _ || Detail.saving _); [reflexivity|].
    unfold Detail.handleUpdateTask.
    destruct (negb (truthy (trim (Detail.title (state w))))); no_delete.
  - left. destruct (Detail.loading _); [reflexivity|]. no_delete.
  - left. destruct (Detail.loading _); [reflexivity|]. no_delete.
  - unfold choose. destruct (nth_error (dialogs w) i) as [bs|] eqn:E; [|now left].
    assert (Hbs : bs = [] \/ bs = prompt_buttons).
    { destruct Hinv as (_ & _ & Hd). rewrite Forall_forall in Hd.
      apply Hd. eapply nth_error_In; eauto. }
    destruct Hbs as [-> | ->].
    + left. destruct j; reflexivity.
    + destruct j as [|[|j]]; cbn.
      * left. reflexivity.
      * right. exists i. split; [reflexivity|]. split; [exact E|].
        observe. reflexivity.
      * left. destruct j; reflexivity.
  - left. unfold respond.
    destruct (nth_error (pending w) i) as [p|] eqn:E; [|reflexivity].
    assert (Hp : detail_known taskId p).
    { destruct Hinv as (Hk & _). apply nth_error_In in E.
      rewrite Forall_forall in Hk. auto. }
    destruct Hp as [(w0 & Hp) | [(s & w0 & Hs & Hp) | (w0 & Hp)]].
    + pin Hp. cbn. destruct (srv _); no_delete.
    + unfold Detail.handleUpdateTask in Hp. rewrite truthy_trim, Hs in Hp. pin Hp.
      cbn. destruct (srv _); no_delete.
    + pin Hp. cbn. destruct (srv _); no_delete.
Qed.

(** C4. In every state the detail screen can reach: the delete action
    sends nothing, starts no request and changes no state, it only opens
    the two-choice prompt; no event at all sends a DELETE except the
    choice of the second, confirming button of an open prompt; the first
    button of a dialog, cancel for the prompt, only closes the dialog; and
    the confirming choice of an open prompt sends the DELETE for the
    task of the route. *)
Theorem C4_delete_needs_confirmation
        (taskId : Z) (es : list Detail.Event) (e : Detail.Event) (i : nat) :
  let w := Detail.run taskId es (Detail.mount taskId) in
  let pressed := Detail.step taskId Detail.PressDelete w in
  let url := API_URL ++ lit "/" ++ of_number taskId in
  fire Detail.handleDeleteTask w = perform delete_prompt w /\
  sent pressed = sent w /\
  pending pressed = pending w /\
  state pressed = state w /\
  dialogs pressed
  = (if Detail.loading (state w) then dialogs w
     else dialogs w ++ [prompt_buttons]) /\
  (deletes (Detail.step taskId e w) = deletes w \/
   exists k, e = Detail.Choose k 1
             /\ nth_error (dialogs w) k = Some prompt_buttons
             /\ sent (Detail.step taskId e w) = sent w ++ [axios_delete url]) /\
  Detail.step taskId (Detail.Choose i 0) w
  = match nth_error (dialogs w) i with
    | Some _ => set_dialogs (remove_nth i (dialogs w)) w
    | None => w
    end /\
  (nth_error (dialogs w) i = Some prompt_buttons ->
   sent (Detail.step taskId (Detail.Choose i 1) w)
   = sent w ++ [axios_delete url]).
Proof.
  intros w pressed url.
  assert (Hinv : detail_inv taskId w)
    by apply (detail_inv_run taskId es _ (detail_inv_mount taskId)).
  split; [reflexivity|].
  assert (Hp : pressed = if Detail.loading (state w) then w
                         else perform delete_prompt w).
  { subst pressed. unfold Detail.step. destruct (Detail.loading (state w)); reflexivity. }
  split; [|split; [|split; [|split]]].
  - rewrite Hp. destruct (Detail.loading (state w)); [reflexivity | apply sent_perform].
  - rewrite Hp. destruct (Detail.loading (state w)); [reflexivity | apply pending_perform].
  - rewrite Hp. destruct (Detail.loading (state w)); [reflexivity | apply state_perform].
  - rewrite Hp. destruct (Detail.loading (state w)); reflexivity.
  - split; [exact (detail_step_deletes taskId e w Hinv)|]. split.
    + unfold Detail.step, choose.
      destruct (nth_error (dialogs w) i) as [bs|] eqn:E; [|reflexivity].
      assert (Hbs : bs = [] \/ bs = prompt_buttons).
      { destruct Hinv as (_ & _ & Hd). rewrite Forall_forall in Hd.
        apply Hd. eapply nth_error_In; eauto. }
      destruct Hbs as [-> | ->]; reflexivity.
    + intros Hi. unfold Detail.step, choose. rewrite Hi. cbn. observe. reflexivity.
Qed.

(** Task 42 is loaded and no dialog is open: the delete action opens the
    prompt and sends nothing; cancel then sends nothing and changes no
    state; confirm sends the DELETE of [/api/tasks/42]. *)
Lemma C4_task_42_prompt :
  let srv := answering [] (Api.mkTask 42 (lit "X") None true []) in
  let w0 := Detail.run 42 [Detail.Respond 0 srv] (Detail.mount 42) in
  let w := Detail.run 42 [Detail.Respond 0 srv; Detail.PressDelete] (Detail.mount 42) in
  dialogs w0 = [] /\
  sent w = sent w0 /\
  pending w = [] /\
  dialogs w = [prompt_buttons] /\
  nth_error (dialogs w) 0 = Some prompt_buttons /\
  deletes w = [] /\
  sent (Detail.step 42 (Detail.Choose 0 0) w) = sent w /\
  state (Detail.step 42 (Detail.Choose 0 0) w) = state w /\
  deletes (Detail.step 42 (Detail.Choose 0 1) w)
  = [axios_delete (lit "http://localhost:3000/api/tasks/42")].
Proof.
  intros srv w0 w.
  destruct (C4_delete_needs_confirmation 42 [Detail.Respond 0 srv] Detail.PressBack 0)
    as (_ & Hsent & Hpend & _ & Hdial & _).
  assert (Hi : nth_error (dialogs w) 0 = Some prompt_buttons) by reflexivity.
  destruct (C4_delete_needs_confirmation
              42 [Detail.Respond 0 srv; Detail.PressDelete] Detail.PressBack 0)
    as (_ & _ & _ & _ & _ & _ & Hcancel & Hconfirm).
  specialize (Hconfirm Hi).
  split; [reflexivity|]. split; [exact Hsent|]. split; [exact Hpend|].
  split; [exact Hdial|]. split; [exact Hi|]. split; [reflexivity|].
  split; [fold w in Hcancel; now rewrite Hcancel|].
  split; [fold w in Hcancel; now rewrite Hcancel|].
  unfold deletes. fold w in Hconfirm. rewrite Hconfirm. vm_compute. reflexivity.
Defined.

(** ** The fetch of the detail screen *)

Lemma detail_in_flight_known taskId (es : list Detail.Event) i p :
  nth_error (pending (Detail.run taskId es (Detail.mount taskId))) i = Some p ->
  detail_known taskId p.
Proof.
  intros Hp.
  destruct (detail_inv_run taskId es _ (detail_inv_mount taskId)) as (Hk & _).
  rewrite Forall_forall in Hk. apply Hk. eapply nth_error_In; eauto.
Qed.

(** C8. Mounting the detail screen sends exactly one request, the GET of
    the collection URL followed by [/] and the digits of the route's task
    id, so that two different (safe integer) ids are fetched from
    different URLs. In every state the screen can reach, when that GET
    fails the error is logged, an alert is shown and the screen navigates
    back, and nothing is retried: no request is sent, no timer is set and
    nothing stays in flight for it; [loading] is false afterwards. *)
Theorem C8_detail_fetch_failure
        (taskId : Z) (es : list Detail.Event) (i : nat) (srv : Server)
        (u : jsstring) (e : Error) :
  let w := Detail.run taskId es (Detail.mount taskId) in
  let w' := Detail.step taskId (Detail.Respond i srv) w in
  let url := API_URL ++ lit "/" ++ of_number taskId in
  sent (Detail.mount taskId) = [axios_get TaskObject url] /\
  in_flight (Detail.mount taskId) = [axios_get TaskObject url] /\
  (forall taskId' : Z,
      safe_integer taskId -> safe_integer taskId' ->
      sent (Detail.mount taskId') = sent (Detail.mount taskId) ->
      taskId' = taskId) /\
  (nth_error (in_flight w) i = Some (axios_get TaskObject u) ->
   srv (axios_get TaskObject u) = inl e ->
   u = url /\
   calls w'
   = calls w ++ [console_error "Fetch Detail Error:" e; detail_load_failed;
                 navigation_goBack] /\
   sent w' = sent w /\
   pending w' = remove_nth i (pending w) /\
   timers w' = timers w /\
   Detail.loading (state w') = false).
Proof.
  intros w w' url.
  split; [reflexivity|]. split; [reflexivity|]. split.
  - intros taskId' _ _ H.
    assert (E : forall t, sent (Detail.mount t)
                          = [axios_get TaskObject (API_URL ++ lit "/" ++ of_number t)])
      by reflexivity.
    assert (I : forall a b : jsstring,
               [axios_get TaskObject a] = [axios_get TaskObject b] -> a = b)
      by (intros a b K; now injection K).
    rewrite !E in H. apply I in H.
    apply app_inv_head in H. apply (app_inv_head (lit "/")) in H.
    now apply of_number_inj.
  - intros Hi He.
    destruct (in_flight_pending _ _ _ Hi) as (p & Hp & Hr).
    destruct (detail_in_flight_known taskId es i p Hp)
      as [(w0 & Hq) | [(s & w0 & Hws & Hq) | (w0 & Hq)]].
    + pin Hq. cbn in Hr. injection Hr as <-. split; [reflexivity|].
      exact (proj2 (failed_task_fetch taskId w _ i srv e eq_refl Hp He)).
    + unfold Detail.handleUpdateTask in Hq. rewrite truthy_trim, Hws in Hq.
      pin Hq. discriminate.
    + pin Hq. discriminate.
Qed.

(** The screen is mounted for task 7 and the server cannot be reached. *)
Lemma C8_task_7_unreachable :
  let w := Detail.mount 7 in
  let w' := Detail.step 7 (Detail.Respond 0 (failing NetworkError)) w in
  sent w = [axios_get TaskObject (lit "http://localhost:3000/api/tasks/7")] /\
  sent (Detail.mount 8) <> sent w /\
  nth_error (in_flight w) 0
  = Some (axios_get TaskObject (lit "http://localhost:3000/api/tasks/7")) /\
  calls w' = [console_error "Fetch Detail Error:" NetworkError; detail_load_failed;
              navigation_goBack] /\
  sent w' = sent w /\ pending w' = [] /\ timers w' = [] /\
  Detail.loading (state w') = false.
Proof.
  intros w w'.
  destruct (C8_detail_fetch_failure 7 [] 0 (failing NetworkError)
              (lit "http://localhost:3000/api/tasks/7") NetworkError)
    as (H1 & _ & H3 & H4).
  assert (Hi : nth_error (in_flight w) 0
               = Some (axios_get TaskObject (lit "http://localhost:3000/api/tasks/7")))
    by (vm_compute; reflexivity).
  destruct (H4 Hi eq_refl) as (_ & K2 & K3 & K4 & K5 & K6).
  split; [etransitivity; [exact H1 | vm_compute; reflexivity]|].
  split.
  { intros H. assert (S7 : safe_integer 7) by (unfold safe_integer; cbn; lia).
    assert (S8 : safe_integer 8) by (unfold safe_integer; cbn; lia).
    specialize (H3 8%Z S7 S8 H). discriminate. }
  split; [exact Hi|]. split; [exact K2|]. split; [exact K3|].
  split; [exact K4|]. split; [exact K5 | exact K6].
Defined.

(** * Further properties *)

(** ** Lists, strings and URLs *)

Lemma nth_error_middle {X} (l r : list X) (x : X) :
  nth_error (l ++ x :: r) (List.length l) = Some x.
Proof. rewrite nth_error_app2, Nat.sub_diag by lia. reflexivity. Qed.

Lemma remove_nth_middle {X} (l r : list X) (x : X) :
  remove_nth (List.length l) (l ++ x :: r) = l ++ r.
Proof. induction l; simpl; congruence. Qed.

Lemma respond_middle {St Cb} (w : World St Cb) l r p srv :
  pending w = l ++ p :: r ->
  respond (List.length l) srv w
  = match srv (p_req p) with
    | inl e => fire (p_err p e) (set_pending (l ++ r) w)
    | inr d => fire (p_ok p d) (set_pending (l ++ r) w)
    end.
Proof.
  intros H. unfold respond. now rewrite H, nth_error_middle, remove_nth_middle.
Qed.

Lemma sent_of_trace {St Cb} (w w' : World St Cb) :
  trace w' = trace w -> sent w' = sent w.
Proof. unfold sent. now intros ->. Qed.

(** X10. For task ids that are safe integers, the ones JavaScript prints
    digit for digit: two task URLs are equal only for equal ids and a task
    URL is never a list URL. Two list URLs are equal only for equal search
    texts, only the empty search text gives the bare collection URL, and
    the detail screen addresses a task by the same URL as the list
    screen. *)
Theorem urls_tell_requests_apart (a b : Z) (q q' : jsstring) :
  safe_integer a -> safe_integer b ->
  (Home.item_url a = Home.item_url b <-> a = b) /\
  (Home.list_url q = Home.list_url q' <-> q = q') /\
  (Home.list_url q = API_URL <-> q = []) /\
  Home.item_url a <> Home.list_url q /\
  Detail.item_url a = Home.item_url a.
Proof.
  intros _ _.
  split; [|split; [|split; [|split; [|reflexivity]]]].
  - split; [|now intros ->]. unfold Home.item_url. intros H.
    apply app_inv_head in H. apply app_inv_head in H. now apply of_number_inj.
  - split; [|now intros ->]. unfold Home.list_url. intros H.
    apply app_inv_head in H.
    destruct q as [|c r], q' as [|c' r']; cbn in H; try discriminate; auto.
    apply (app_inv_head (lit "?search=")). exact H.
  - split; [|now intros ->]. unfold Home.list_url. intros H.
    rewrite <- (app_nil_r API_URL) in H at 2. apply app_inv_head in H.
    destruct q; [reflexivity | cbn in H; discriminate].
  - unfold Home.item_url, Home.list_url. intros H. apply app_inv_head in H.
    destruct q; cbn in H; discriminate.
Qed.

(** Tasks 7 and 8, and the search texts "a" and "b". *)
Lemma urls_witness :
  safe_integer 7 /\ safe_integer 8 /\
  Home.item_url 7 = lit "http://localhost:3000/api/tasks/7" /\
  Home.item_url 8 = lit "http://localhost:3000/api/tasks/8" /\
  Home.item_url 7 <> Home.item_url 8 /\
  Home.list_url (lit "a") = lit "http://localhost:3000/api/tasks?search=a" /\
  Home.list_url (lit "a") <> Home.list_url (lit "b") /\
  Home.item_url 7 <> Home.list_url (lit "a").
Proof.
  assert (S7 : safe_integer 7) by (unfold safe_integer; cbn; lia).
  assert (S8 : safe_integer 8) by (unfold safe_integer; cbn; lia).
  destruct (urls_tell_requests_apart 7 8 (lit "a") (lit "b") S7 S8)
    as (H1 & H2 & _ & H4 & _).
  split; [exact S7|]. split; [exact S8|].
  split; [vm_compute; reflexivity|]. split; [vm_compute; reflexivity|].
  split; [intros H; apply H1 in H; discriminate|].
  split; [vm_compute; reflexivity|].
  split; [intros H; apply H2 in H; vm_compute in H; discriminate | exact H4].
Defined.

Lemma edge_ok_trimStart s : edge_ok (trimStart s) = true.
Proof.
  induction s as [|c r IH]; cbn; [reflexivity|].
  destruct (isWhiteSpace c) eqn:E; [exact IH|]. cbn. now rewrite E.
Qed.

Lemma trimStart_fixed s : edge_ok s = true -> trimStart s = s.
Proof.
  destruct s as [|c r]; cbn; [reflexivity|].
  destruct (isWhiteSpace c); [discriminate | reflexivity].
Qed.

Lemma trimStart_split s :
  exists a, s = a ++ trimStart s /\ whitespace_only a = true.
Proof.
  induction s as [|c r (a & Ha & Hw)]; cbn.
  - exists []. auto.
  - destruct (isWhiteSpace c) eqn:E.
    + exists (c :: a). split; [cbn; now f_equal|].
      unfold whitespace_only in *. cbn. now rewrite E.
    + exists []. auto.
Qed.

Lemma edge_ok_prefix x y : edge_ok (x ++ y) = true -> edge_ok x = true.
Proof. destruct x; auto. Qed.

Lemma tidy_trim s : tidy (trim s) = true.
Proof.
  unfold tidy, trim, trimEnd. rewrite rev_involutive, edge_ok_trimStart, andb_true_r.
  destruct (trimStart_split (rev (trimStart s))) as (a & Ha & _).
  apply (f_equal (@rev N)) in Ha. rewrite rev_involutive, rev_app_distr in Ha.
  apply edge_ok_prefix with (y := rev a). rewrite <- Ha. apply edge_ok_trimStart.
Qed.

(** ** The list screen *)

(** X1. In every state the list screen can reach, when a list GET in flight
    settles: on success the tasks become exactly the response data,
    whatever search text the request was sent for, and nothing is logged
    or shown; on failure the tasks stay; either way [loading] and
    [refreshing] are false afterwards, and the search text, the requests
    sent and the timer are untouched. *)
Theorem list_fetch_settles
        (es : list Home.Event) (i : nat) (srv : Server) (u : jsstring) :
  nth_error (in_flight (Home.world (Home.run es Home.mount))) i
  = Some (axios_get TaskArray u) ->
  let m := Home.run es Home.mount in
  let m' := Home.step (Home.Respond i srv) m in
  match srv (axios_get TaskArray u) with
  | inr d => Home.tasks (state (Home.world m')) = d
             /\ calls (Home.world m') = calls (Home.world m)
  | inl e => Home.tasks (state (Home.world m')) = Home.tasks (state (Home.world m))
  end /\
  Home.loading (state (Home.world m')) = false /\
  Home.refreshing (state (Home.world m')) = false /\
  Home.searchText (state (Home.world m')) = Home.searchText (state (Home.world m)) /\
  sent (Home.world m') = sent (Home.world m) /\
  timers (Home.world m') = timers (Home.world m) /\
  Home.cleanup m' = Home.cleanup m.
Proof.
  intros Hi m m'. fold m in Hi.
  destruct (in_flight_pending _ _ _ Hi) as (p & Hp & Hr).
  destruct (home_in_flight_known es i p Hp)
    as [(q & w0 & Hq) | (id & status & w0 & Hq)]; pin Hq; [|discriminate].
  cbn in Hr. injection Hr as <-.
  subst m'. unfold Home.step, Home.on_world, respond. fold m. rewrite Hp. cbn.
  destruct (srv _) as [e|d]; observe; repeat split; reflexivity.
Qed.

Lemma list_fetch_settles_witness :
  let es := [Home.Elapse 300] in
  let srv := answering [milk] milk in
  let m := Home.run es Home.mount in
  let m' := Home.step (Home.Respond 0 srv) m in
  nth_error (in_flight (Home.world m)) 0 = Some (axios_get TaskArray (Home.list_url [])) /\
  Home.tasks (state (Home.world m')) = [milk] /\
  Home.loading (state (Home.world m)) = true /\
  Home.loading (state (Home.world m')) = false.
Proof.
  intros es srv m m'.
  assert (Hi : nth_error (in_flight (Home.world (Home.run es Home.mount))) 0
               = Some (axios_get TaskArray (Home.list_url []))) by reflexivity.
  destruct (list_fetch_settles es 0 srv _ Hi) as (H1 & H2 & _).
  cbn in H1. destruct H1 as [H1 _].
  split; [exact Hi|]. split; [exact H1|]. split; [reflexivity | exact H2].
Defined.

(** X2. In every state the list screen can reach, a PUT in flight is a
    toggle's; when it succeeds the tasks become the old ones with
    [isCompleted] set to the sent status on the rows of that id, and the
    other fields of the state and the trace are untouched. *)
Theorem toggle_success_updates_matching_rows
        (es : list Home.Event) (i : nat) (srv : Server) (u : jsstring) (b : Body)
        (d : unit) :
  nth_error (in_flight (Home.world (Home.run es Home.mount))) i
  = Some (axios_put u b) ->
  srv (axios_put u b) = inr d ->
  let m := Home.run es Home.mount in
  let m' := Home.step (Home.Respond i srv) m in
  exists id status,
    u = Home.item_url id /\ b = toggle_body status /\
    Home.tasks (state (Home.world m'))
    = toggled id status (Home.tasks (state (Home.world m))) /\
    Home.loading (state (Home.world m')) = Home.loading (state (Home.world m)) /\
    Home.refreshing (state (Home.world m')) = Home.refreshing (state (Home.world m)) /\
    Home.searchText (state (Home.world m')) = Home.searchText (state (Home.world m)) /\
    trace (Home.world m') = trace (Home.world m).
Proof.
  intros Hi Hs m m'. fold m in Hi.
  destruct (in_flight_pending _ _ _ Hi) as (p & Hp & Hr).
  destruct (home_in_flight_known es i p Hp)
    as [(q & w0 & Hq) | (id & status & w0 & Hq)]; pin Hq; [discriminate|].
  cbn in Hr. injection Hr as <- <-.
  exists id, status. split; [reflexivity|]. split; [reflexivity|].
  subst m'. unfold Home.step, Home.on_world, respond. fold m. rewrite Hp.
  cbn in *. rewrite Hs. cbn. repeat split; reflexivity.
Qed.

Lemma toggle_success_witness :
  let es := [Home.Elapse 300; Home.Respond 0 (answering [milk] milk);
             Home.PressToggle 0] in
  let srv := answering [] milk in
  let m := Home.run es Home.mount in
  let m' := Home.step (Home.Respond 0 srv) m in
  nth_error (in_flight (Home.world m)) 0
  = Some (axios_put (Home.item_url 1) (toggle_body true)) /\
  srv (axios_put (Home.item_url 1) (toggle_body true)) = inr tt /\
  exists id status,
    Home.item_url 1 = Home.item_url id /\ toggle_body true = toggle_body status /\
    Home.tasks (state (Home.world m'))
    = toggled id status (Home.tasks (state (Home.world m))).
Proof.
  intros es srv m m'.
  assert (Hi : nth_error (in_flight (Home.world (Home.run es Home.mount))) 0
               = Some (axios_put (Home.item_url 1) (toggle_body true))) by reflexivity.
  assert (Hs : srv (axios_put (Home.item_url 1) (toggle_body true)) = inr tt)
    by reflexivity.
  destruct (toggle_success_updates_matching_rows es 0 srv _ _ tt Hi Hs)
    as (id & status & H1 & H2 & H3 & _).
  split; [exact Hi|]. split; [exact Hs|].
  exists id, status. split; [exact H1|]. split; [exact H2 | exact H3].
Defined.

Lemma toggled_twice id s s' l : toggled id s' (toggled id s l) = toggled id s' l.
Proof.
  unfold toggled. rewrite map_map. apply map_ext. intros t.
  destruct (Api.id t =? id)%Z eqn:E; cbn; rewrite E; reflexivity.
Qed.

(** X3. The list update of a toggle keeps the rows, their order and their
    ids, titles, descriptions and creation dates; it sets [isCompleted] on
    every row of the id and on no other; applied twice for one id, the
    later status wins. *)
Theorem toggle_changes_only_completion (id : Z) (s s' : bool) (l : list Api.Task) :
  List.map Api.id (toggled id s l) = List.map Api.id l /\
  List.map Api.title (toggled id s l) = List.map Api.title l /\
  List.map Api.description (toggled id s l) = List.map Api.description l /\
  List.map Api.createdAt (toggled id s l) = List.map Api.createdAt l /\
  List.map Api.isCompleted (toggled id s l)
  = List.map (fun t => if (Api.id t =? id)%Z then s else Api.isCompleted t) l /\
  toggled id s' (toggled id s l) = toggled id s' l.
Proof.
  unfold toggled. rewrite !map_map.
  repeat split; try (apply map_ext; intros t; destruct (Api.id t =? id)%Z eqn:E;
                     cbn; rewrite ?E; reflexivity).
Qed.

(** X4. The list updates of toggles of two different tasks commute: their
    PUTs may succeed in either order with the same list. *)
Theorem toggles_of_different_tasks_commute
        (id id' : Z) (s s' : bool) (l : list Api.Task) :
  id <> id' ->
  toggled id s (toggled id' s' l) = toggled id' s' (toggled id s l).
Proof.
  intros H. unfold toggled. rewrite !map_map. apply map_ext. intros t.
  destruct (Api.id t =? id)%Z eqn:E, (Api.id t =? id')%Z eqn:E'; cbn;
    rewrite ?E, ?E'; try reflexivity.
  apply Z.eqb_eq in E, E'. congruence.
Qed.

Lemma toggles_commute_witness :
  let bread := Api.mkTask 2 (lit "bread") None true [] in
  1%Z <> 2%Z /\
  toggled 1 true (toggled 2 false [milk; bread])
  = toggled 2 false (toggled 1 true [milk; bread]).
Proof.
  intros bread.
  assert (H : 1%Z <> 2%Z) by discriminate.
  split; [exact H|].
  exact (toggles_of_different_tasks_commute 1 2 true false [milk; bread] H).
Defined.

(** X5. Two taps on a row's checkbox before any response send the same PUT
    twice, both with the negation of the completion shown, and leave the
    list alone; once both have succeeded the row is toggled once, not
    back. *)
Theorem double_tap_toggles_once
        (m : Home.Screen) (row : nat) (task : Api.Task) (srv : Server) (d : unit) :
  Home.list_shown (state (Home.world m)) = true ->
  nth_error (Home.tasks (state (Home.world m))) row = Some task ->
  srv (axios_put (Home.item_url (Api.id task))
                 (toggle_body (negb (Api.isCompleted task)))) = inr d ->
  let put := axios_put (Home.item_url (Api.id task))
                       (toggle_body (negb (Api.isCompleted task))) in
  let n := List.length (pending (Home.world m)) in
  let m2 := Home.run [Home.PressToggle row; Home.PressToggle row] m in
  let m4 := Home.run [Home.Respond n srv; Home.Respond n srv] m2 in
  in_flight (Home.world m2) = in_flight (Home.world m) ++ [put; put] /\
  Home.tasks (state (Home.world m2)) = Home.tasks (state (Home.world m)) /\
  Home.tasks (state (Home.world m4))
  = toggled (Api.id task) (negb (Api.isCompleted task))
            (Home.tasks (state (Home.world m))) /\
  in_flight (Home.world m4) = in_flight (Home.world m).
Proof.
  intros Hs Hr Hsrv put n m2 m4.
  assert (E2 : exists ok err,
             Home.world m2
             = send put ok err (send (A:=unit) put ok err (Home.world m))
             /\ (forall w, fire (ok d) w
                    = upd_state (fun s => Home.mkState
                                  (toggled (Api.id task) (negb (Api.isCompleted task))
                                           (Home.tasks s))
                                  (Home.loading s) (Home.searchText s)
                                  (Home.refreshing s)) w)).
  { do 2 eexists. subst m2. cbn. rewrite Hs, Hr. cbn. rewrite Hs, Hr. cbn.
    split; reflexivity. }
  destruct E2 as (ok & err & E2 & Hok).
  split. { rewrite E2. unfold in_flight. cbn. rewrite !map_app. cbn.
          exact (eq_sym (app_assoc _ [put] [put])). }
  split. { rewrite E2. reflexivity. }
  subst m4. cbn [Home.run fold_left Home.step Home.on_world Home.world].
  rewrite E2.
  rewrite (respond_middle (send put ok err (send (A:=unit) put ok err (Home.world m)))
             (pending (Home.world m)) [mkPending put ok err]
             (mkPending put ok err))
    by (cbn; exact (eq_sym (app_assoc _ [_] [_]))).
  cbn [p_req p_ok p_err]. fold put. subst put. rewrite Hsrv, Hok.
  rewrite (respond_middle _ (pending (Home.world m)) []
             (mkPending _ ok err)) by reflexivity.
  cbn [p_req p_ok p_err]. rewrite Hsrv, Hok.
  split.
  - cbn [state upd_state set_pending Home.tasks send log]. apply toggled_twice.
  - unfold in_flight. cbn. now rewrite app_nil_r.
Qed.

Lemma double_tap_witness :
  let m := Home.run [Home.Elapse 300; Home.Respond 0 (answering [milk] milk)]
                    Home.mount in
  let srv := answering [] milk in
  let n := List.length (pending (Home.world m)) in
  let m2 := Home.run [Home.PressToggle 0; Home.PressToggle 0] m in
  let m4 := Home.run [Home.Respond n srv; Home.Respond n srv] m2 in
  Home.list_shown (state (Home.world m)) = true /\
  nth_error (Home.tasks (state (Home.world m))) 0 = Some milk /\
  srv (axios_put (Home.item_url (Api.id milk))
                 (toggle_body (negb (Api.isCompleted milk)))) = inr tt /\
  Home.tasks (state (Home.world m4)) = [Api.with_isCompleted milk true].
Proof.
  intros m srv n m2 m4.
  assert (Hs : Home.list_shown (state (Home.world m)) = true) by reflexivity.
  assert (Hr : nth_error (Home.tasks (state (Home.world m))) 0 = Some milk)
    by reflexivity.
  assert (Hv : srv (axios_put (Home.item_url (Api.id milk))
                              (toggle_body (negb (Api.isCompleted milk)))) = inr tt)
    by reflexivity.
  destruct (double_tap_toggles_once m 0 milk srv tt Hs Hr Hv) as (_ & _ & H3 & _).
  split; [exact Hs|]. split; [exact Hr|]. split; [exact Hv|].
  subst m4 m2 n. rewrite H3. reflexivity.
Defined.

(** X6. A pull-to-refresh, possible while the list is shown, sets
    [refreshing], sends the GET for the current search text at once
    without touching the timer or the tasks, and keeps the list on
    screen; when that GET settles, either way, [refreshing] and [loading]
    are false. *)
Theorem refresh_fetches_at_once (m : Home.Screen) (srv : Server) :
  Home.list_shown (state (Home.world m)) = true ->
  let m1 := Home.step Home.Refresh m in
  let m2 := Home.step (Home.Respond (List.length (pending (Home.world m))) srv) m1 in
  Home.refreshing (state (Home.world m1)) = true /\
  Home.list_shown (state (Home.world m1)) = true /\
  Home.tasks (state (Home.world m1)) = Home.tasks (state (Home.world m)) /\
  trace (Home.world m1)
  = trace (Home.world m)
    ++ [(clock (Home.world m),
         Sent (axios_get TaskArray
                 (Home.list_url (Home.searchText (state (Home.world m))))))] /\
  timers (Home.world m1) = timers (Home.world m) /\
  Home.refreshing (state (Home.world m2)) = false /\
  Home.loading (state (Home.world m2)) = false.
Proof.
  intros Hs m1 m2. subst m2.
  assert (E : m1 = Home.on_world (fire (Home.handleRefresh (state (Home.world m)))) m)
    by (subst m1; unfold Home.step; now rewrite Hs).
  clearbody m1. subst m1.
  split; [reflexivity|]. split.
  { cbn. unfold Home.list_shown. cbn. now rewrite andb_false_r. }
  split; [reflexivity|]. split; [reflexivity|]. split; [reflexivity|].
  unfold Home.step, Home.on_world. cbn [Home.world].
  erewrite (respond_middle _ (pending (Home.world m)) []) by reflexivity.
  cbn. destruct (srv _); split; reflexivity.
Qed.

Lemma refresh_witness :
  let m := Home.run [Home.Elapse 300; Home.Respond 0 (answering [milk] milk)]
                    Home.mount in
  let m1 := Home.step Home.Refresh m in
  let m2 := Home.step (Home.Respond 0 (failing NetworkError)) m1 in
  Home.list_shown (state (Home.world m)) = true /\
  Home.refreshing (state (Home.world m1)) = true /\
  Home.list_shown (state (Home.world m1)) = true /\
  Home.refreshing (state (Home.world m2)) = false.
Proof.
  intros m m1 m2.
  assert (Hs : Home.list_shown (state (Home.world m)) = true) by reflexivity.
  destruct (refresh_fetches_at_once m (failing NetworkError) Hs)
    as (H1 & H2 & _ & _ & _ & H6 & _).
  split; [exact Hs|]. split; [exact H1|]. split; [exact H2 | exact H6].
Defined.

Lemma armed_ext (m m' : Home.Screen) q t :
  Home.cleanup m' = Home.cleanup m ->
  timers (Home.world m') = timers (Home.world m) ->
  clock (Home.world m') = clock (Home.world m) ->
  armed m q t -> armed m' q t.
Proof. unfold armed. intros -> -> ->. auto. Qed.

(** X7. The focus fetch and the debounced fetch are not coordinated: when
    the search text changes and the screen gets focus [g] < 300ms later,
    the focus fetch is sent at once and the debounced one still fires
    300ms after the change, both for the new text. *)
Theorem focus_does_not_cancel_debounce
        (es : list Home.Event) (v : jsstring) (g : nat) :
  v <> Home.searchText (state (Home.world (Home.run es Home.mount))) ->
  g < 300 ->
  let m := Home.run es Home.mount in
  let m' := Home.run [Home.ChangeText v; Home.Elapse g; Home.Focus;
                      Home.Elapse (300 - g)] m in
  trace (Home.world m')
  = trace (Home.world m)
    ++ [(clock (Home.world m) + g, Sent (axios_get TaskArray (Home.list_url v)));
        (clock (Home.world m) + 300, Sent (axios_get TaskArray (Home.list_url v)))].
Proof.
  intros Hv Hg m m'.
  assert (Hinv : debounce_inv m) by apply (home_inv_run es _ home_inv_mount).
  destruct (change_arms m v Hinv Hv) as (Ha1 & Ht1 & _ & Hk1 & Hs1).
  set (m1 := Home.step (Home.ChangeText v) m) in *.
  destruct (elapse_short m1 v _ g Ha1 ltac:(lia)) as (Ha2 & Ht2 & _ & Hk2 & Hs2).
  set (m2 := Home.step (Home.Elapse g) m1) in *.
  set (m3 := Home.step Home.Focus m2).
  assert (Ha3 : armed m3 v (clock (Home.world m) + 300))
    by (revert Ha2; apply armed_ext; reflexivity).
  assert (Ht3 : trace (Home.world m3)
                = trace (Home.world m2)
                  ++ [(clock (Home.world m2),
                       Sent (axios_get TaskArray
                               (Home.list_url (Home.searchText (state (Home.world m2))))))])
    by reflexivity.
  assert (Hk3 : clock (Home.world m3) = clock (Home.world m2)) by reflexivity.
  destruct (elapse_fires m3 v _ (300 - g) Ha3 ltac:(lia)) as (_ & Ht4 & _).
  change m' with (Home.step (Home.Elapse (300 - g)) m3).
  rewrite Ht4, Ht3, Ht2, Ht1, Hs2, Hs1, Hk2, Hk1, <- app_assoc. reflexivity.
Qed.

Lemma focus_witness :
  let m' := Home.run [Home.ChangeText (lit "a"); Home.Elapse 100; Home.Focus;
                      Home.Elapse 200] Home.mount in
  lit "a" <> Home.searchText (state (Home.world (Home.run [] Home.mount))) /\
  100 < 300 /\
  trace (Home.world m')
  = [(100, Sent (axios_get TaskArray (Home.list_url (lit "a"))));
     (300, Sent (axios_get TaskArray (Home.list_url (lit "a"))))].
Proof.
  intros m'.
  assert (Hv : lit "a" <> Home.searchText (state (Home.world (Home.run [] Home.mount))))
    by (vm_compute; discriminate).
  assert (Hg : 100 < 300) by lia.
  split; [exact Hv|]. split; [exact Hg|].
  exact (focus_does_not_cancel_debounce [] (lit "a") 100 Hv Hg).
Defined.

Lemma timer_tracks_ext (m m' : Home.Screen) :
  Home.cleanup m' = Home.cleanup m ->
  timers (Home.world m') = timers (Home.world m) ->
  clock (Home.world m') = clock (Home.world m) ->
  Home.searchText (state (Home.world m')) = Home.searchText (state (Home.world m)) ->
  timer_tracks m -> timer_tracks m'.
Proof. unfold timer_tracks. intros -> -> -> ->. auto. Qed.

Lemma timer_tracks_step (e : Home.Event) (m : Home.Screen) :
  home_inv m -> timer_tracks m -> timer_tracks (Home.step e m).
Proof.
  intros [Hd Hk] Ht.
  destruct e as [v| | |row|ms|i srv]; unfold Home.step.
  - destruct (Js.eqb v _) eqn:E; [exact Ht|].
    apply eqb_neq in E.
    destruct (change_arms m v Hd E) as ((h & Hc & Hm & Hlt) & _ & _ & Hclk & Hs).
    unfold Home.step in Hc, Hm, Hlt, Hclk, Hs. apply eqb_neq in E.
    rewrite E in Hc, Hm, Hlt, Hclk, Hs.
    right. exists h, (clock (Home.world m) + 300).
    rewrite Hs, Hclk. repeat split; auto. lia.
  - revert Ht. apply timer_tracks_ext; reflexivity.
  - destruct (Home.list_shown _); [|exact Ht].
    revert Ht. apply timer_tracks_ext; reflexivity.
  - destruct (Home.list_shown _); [|exact Ht].
    destruct (nth_error _ row); [|exact Ht].
    revert Ht. apply timer_tracks_ext; reflexivity.
  - unfold Home.on_world. destruct Ht as [Ht | (h & t & Hc & Hm & Hlt & Hle)].
    + left. now rewrite (advance_idle _ _ _ _ _ Ht).
    + destruct (Nat.lt_ge_cases (clock (Home.world m) + ms) t) as [Hs|Hg].
      * right. exists h, t.
        rewrite (advance_not_due _ _ _ _ _ _ Hm) by exact Hs. cbn.
        repeat split; auto. lia.
      * left. rewrite (advance_due _ _ _ _ _ _ Hm) by assumption. reflexivity.
  - unfold Home.on_world, respond.
    destruct (nth_error (pending (Home.world m)) i) as [p|] eqn:E; [|exact Ht].
    assert (Hp : home_known p).
    { apply nth_error_In in E. rewrite Forall_forall in Hk. auto. }
    destruct Hp as [(q & w0 & Hp) | (id & status & w0 & Hp)]; pin Hp; cbn;
      destruct (srv _); cbn; revert Ht; apply timer_tracks_ext; reflexivity.
Qed.

Lemma timer_tracks_run (es : list Home.Event) : forall m,
  home_inv m -> timer_tracks m -> timer_tracks (Home.run es m).
Proof.
  induction es as [|e es IH]; intros m Hi Ht; [exact Ht|].
  cbn. apply IH; [apply home_inv_step, Hi | apply timer_tracks_step; assumption].
Qed.

(** X8. In every state the list screen can reach there is at most one
    timer; it is the one the search effect's cleanup will clear, it will
    fetch the search text now in the box, and it is due within the next
    300ms. *)
Theorem debounce_timer_tracks_search_text (es : list Home.Event) :
  timer_tracks (Home.run es Home.mount).
Proof.
  apply timer_tracks_run; [apply home_inv_mount|].
  right. exists 0, 300. cbn. repeat split; lia.
Qed.

Lemma home_step_sent (e : Home.Event) (m : Home.Screen) :
  home_inv m ->
  exists rs, sent (Home.world (Home.step e m)) = sent (Home.world m) ++ rs
             /\ Forall home_request rs.
Proof.
  intros [Hd Hk].
  assert (Hnil : forall m', trace (Home.world m') = trace (Home.world m) ->
            exists rs, sent (Home.world m') = sent (Home.world m) ++ rs
                       /\ Forall home_request rs).
  { intros m' H. exists []. rewrite app_nil_r. split; [now apply sent_of_trace | constructor]. }
  assert (Hget : forall q, home_request (axios_get TaskArray (Home.list_url q)))
    by (intros q; left; eauto).
  destruct e as [v| | |row|ms|i srv]; unfold Home.step.
  - destruct (Js.eqb v _) eqn:E; [now apply Hnil|].
    apply eqb_neq in E. destruct (change_arms m v Hd E) as (_ & Ht & _).
    unfold Home.step in Ht. apply eqb_neq in E. rewrite E in Ht. now apply Hnil.
  - exists [axios_get TaskArray (Home.list_url (Home.searchText (state (Home.world m))))].
    split; [observe; reflexivity | auto].
  - destruct (Home.list_shown _); [|now apply Hnil].
    exists [axios_get TaskArray (Home.list_url (Home.searchText (state (Home.world m))))].
    split; [observe; reflexivity | auto].
  - destruct (Home.list_shown _); [|now apply Hnil].
    destruct (nth_error _ row) as [task|]; [|now apply Hnil].
    exists [axios_put (Home.item_url (Api.id task))
                      (toggle_body (negb (Api.isCompleted task)))].
    split; [observe; reflexivity|].
    constructor; [|constructor]. right. eauto.
  - destruct Hd as [(h & Hc & Ht) | (q & t & Ha)].
    + apply Hnil. unfold Home.on_world. now rewrite (advance_idle _ _ _ _ _ Ht).
    + destruct (Nat.lt_ge_cases (clock (Home.world m) + ms) t) as [Hs|Hg].
      * destruct (elapse_short m q t ms Ha Hs) as (_ & Ht & _). now apply Hnil.
      * destruct (elapse_fires m q t ms Ha Hg) as (_ & Ht & _).
        unfold Home.step in Ht. unfold sent. rewrite Ht, flat_map_app. cbn.
        eexists. split; [reflexivity | auto].
  - unfold Home.on_world, respond.
    destruct (nth_error (pending (Home.world m)) i) as [p|] eqn:E; [|now apply Hnil].
    assert (Hp : home_known p).
    { apply nth_error_In in E. rewrite Forall_forall in Hk. auto. }
    exists [].
    destruct Hp as [(q & w0 & Hp) | (id & status & w0 & Hp)]; pin Hp; cbn;
      destruct (srv _); observe; (split; [reflexivity | constructor]).
Qed.

(** X9. Whatever happens, the list screen only ever sends GETs of a list
    URL and PUTs to a task URL whose body is [isCompleted] alone: it never
    creates, deletes, or sends a title or description. *)
Theorem list_screen_sends_only_fetches_and_toggles (es : list Home.Event) :
  Forall home_request (sent (Home.world (Home.run es Home.mount))).
Proof.
  assert (G : forall m, home_inv m -> Forall home_request (sent (Home.world m)) ->
                        Forall home_request (sent (Home.world (Home.run es m)))).
  { induction es as [|e es IH]; intros m Hi Hs; [exact Hs|].
    cbn. apply IH; [apply home_inv_step, Hi|].
    destruct (home_step_sent e m Hi) as (rs & -> & Hrs).
    apply Forall_app. auto. }
  apply G; [apply home_inv_mount | constructor].
Qed.

(** ** The creation screen *)

Lemma add_step_effect (e : Add.Event) (w : Add.Rt) :
  add_inv w ->
  Add.title (state (Add.step e w))
  = match title_edit e with Some v => v | None => Add.title (state w) end /\
  Add.description (state (Add.step e w))
  = match description_edit e with Some v => v | None => Add.description (state w) end /\
  exists rs, sent (Add.step e w) = sent w ++ rs /\ Forall add_request rs.
Proof.
  intros Hinv.
  assert (Hnil : forall w' : Add.Rt, trace w' = trace w ->
            exists rs, sent w' = sent w ++ rs /\ Forall add_request rs).
  { intros w' H. exists []. rewrite app_nil_r. split; [now apply sent_of_trace | constructor]. }
  destruct e as [v|v| | |i j|i srv]; unfold Add.step; cbn [title_edit description_edit].
  - repeat split; auto.
  - repeat split; auto.
  - destruct (Add.loading (state w)); [repeat split; auto|].
    destruct (whitespace_only (Add.title (state w))) eqn:Ews.
    + rewrite (add_save_rejected _ _ Ews). autorewrite with obs.
      repeat split. exists []. rewrite app_nil_r. split; [reflexivity | constructor].
    + destruct (add_save_submitted _ w Ews) as (ok & err & ->).
      repeat split.
      exists [axios_post API_URL (add_body (state w))]. split; [now rewrite sent_send|].
      constructor; [|constructor]. unfold add_body. do 2 eexists.
      split; [reflexivity|]. split; [|split; apply tidy_trim].
      intros H. apply trim_nil_iff in H. congruence.
  - repeat split. exists []. rewrite app_nil_r. split; [observe; reflexivity | constructor].
  - unfold choose. destruct (nth_error (dialogs w) i) as [bs|]; [|repeat split; auto].
    destruct (nth_error bs j) as [b|]; [|repeat split; auto].
    destruct (onPress b) as [[]|]. repeat split; auto.
  - unfold respond.
    destruct (nth_error (pending w) i) as [p|] eqn:E; [|repeat split; auto].
    unfold add_inv in Hinv. destruct (Add.loading (state w)) eqn:El.
    + destruct Hinv as (p' & Hp' & Hk). rewrite Hp' in *.
      destruct i as [|i]; [|destruct i; discriminate].
      injection E as ->. destruct Hk as (s & w0 & Hs & Hp).
      unfold Add.handleSaveTask in Hp. rewrite truthy_trim, Hs in Hp. pin Hp.
      cbn. destruct (srv _); observe; repeat split;
        (exists []; rewrite app_nil_r; split; [reflexivity | constructor]).
    + rewrite Hinv in E. destruct i; discriminate.
Qed.

(** X11. In every state the creation screen can reach, the title and the
    description fields hold the last text typed into them (no response
    and no button clears them), and every request sent is a POST to the
    collection whose title is not empty and whose title and description
    have no white space at their ends. *)
Theorem creation_form_keeps_what_was_typed (es : list Add.Event) :
  let w := Add.run es Add.initial in
  Add.title (state w) = typed title_edit es [] /\
  Add.description (state w) = typed description_edit es [] /\
  Forall add_request (sent w).
Proof.
  assert (G : forall w0, add_inv w0 ->
            Add.title (state (Add.run es w0)) = typed title_edit es (Add.title (state w0)) /\
            Add.description (state (Add.run es w0))
            = typed description_edit es (Add.description (state w0)) /\
            (Forall add_request (sent w0) -> Forall add_request (sent (Add.run es w0)))).
  { induction es as [|e es IH]; intros w0 Hi; [cbn; auto|].
    destruct (add_step_effect e w0 Hi) as (Ht & Hd & rs & Hs & Hrs).
    destruct (IH (Add.step e w0) (add_inv_step e w0 Hi)) as (IH1 & IH2 & IH3).
    change (Add.run (e :: es) w0) with (Add.run es (Add.step e w0)).
    unfold typed in *. cbn [fold_left].
    rewrite IH1, IH2, Ht, Hd. repeat split.
    intros H. apply IH3. rewrite Hs. apply Forall_app. auto. }
  destruct (G Add.initial add_inv_initial) as (H1 & H2 & H3).
  split; [exact H1|]. split; [exact H2|]. apply H3. constructor.
Qed.

(** ** The detail screen *)

(** X12. In every state the detail screen can reach, a task GET in flight
    is the one for the route's task; when it succeeds the form holds
    exactly the response's title, its description or the empty string,
    and its completion flag, [loading] is false, [saving] is as before,
    and nothing is logged, shown or navigated. *)
Theorem detail_fetch_success_fills_form
        (taskId : Z) (es : list Detail.Event) (i : nat) (srv : Server)
        (u : jsstring) (d : Api.Task) :
  nth_error (in_flight (Detail.run taskId es (Detail.mount taskId))) i
  = Some (axios_get TaskObject u) ->
  srv (axios_get TaskObject u) = inr d ->
  let w := Detail.run taskId es (Detail.mount taskId) in
  let w' := Detail.step taskId (Detail.Respond i srv) w in
  u = Detail.item_url taskId /\
  state w' = Detail.mkState (Api.title d) (or_else (Api.description d) [])
                            (Api.isCompleted d) false (Detail.saving (state w)) /\
  trace w' = trace w /\
  dialogs w' = dialogs w.
Proof.
  intros Hi Hs w w'. fold w in Hi.
  destruct (in_flight_pending _ _ _ Hi) as (p & Hp & Hr).
  destruct (detail_in_flight_known taskId es i p Hp)
    as [(w0 & Hq) | [(s & w0 & Hws & Hq) | (w0 & Hq)]].
  - pin Hq. cbn in Hr. injection Hr as <-. split; [reflexivity|].
    subst w'. unfold Detail.step, respond. fold w. rewrite Hp.
    cbn in *. rewrite Hs. cbn. repeat split; reflexivity.
  - unfold Detail.handleUpdateTask in Hq. rewrite truthy_trim, Hws in Hq.
    pin Hq. discriminate.
  - pin Hq. discriminate.
Qed.

Lemma detail_fetch_witness :
  let t := Api.mkTask 42 (lit "X") None false (lit "2024-01-01") in
  let srv := answering [] t in
  let w := Detail.run 42 [] (Detail.mount 42) in
  let w' := Detail.step 42 (Detail.Respond 0 srv) w in
  nth_error (in_flight w) 0 = Some (axios_get TaskObject (Detail.item_url 42)) /\
  srv (axios_get TaskObject (Detail.item_url 42)) = inr t /\
  state w' = Detail.mkState (lit "X") [] false false false.
Proof.
  intros t srv w w'.
  assert (Hi : nth_error (in_flight (Detail.run 42 [] (Detail.mount 42))) 0
               = Some (axios_get TaskObject (Detail.item_url 42))) by reflexivity.
  assert (Hs : srv (axios_get TaskObject (Detail.item_url 42)) = inr t) by reflexivity.
  destruct (detail_fetch_success_fills_form 42 [] 0 srv _ t Hi Hs) as (_ & H2 & _).
  split; [exact Hi|]. split; [exact Hs | exact H2].
Defined.

(** X13. In every state the detail screen can reach, a DELETE in flight is
    the one for the route's task; when it settles the form state is as
    before and nothing is sent; on success the success alert is shown and
    the screen navigates back, on failure the error is logged and alerted
    and nothing navigates. *)
Theorem delete_settles
        (taskId : Z) (es : list Detail.Event) (i : nat) (srv : Server)
        (u : jsstring) :
  nth_error (in_flight (Detail.run taskId es (Detail.mount taskId))) i
  = Some (axios_delete u) ->
  let w := Detail.run taskId es (Detail.mount taskId) in
  let w' := Detail.step taskId (Detail.Respond i srv) w in
  u = Detail.item_url taskId /\
  state w' = state w /\
  sent w' = sent w /\
  match srv (axios_delete u) with
  | inr _ => calls w' = calls w ++ [detail_deleted; navigation_goBack]
  | inl e => calls w' = calls w ++ [console_error "Delete Error:" e; delete_failed]
  end.
Proof.
  intros Hi w w'. fold w in Hi.
  destruct (in_flight_pending _ _ _ Hi) as (p & Hp & Hr).
  destruct (detail_in_flight_known taskId es i p Hp)
    as [(w0 & Hq) | [(s & w0 & Hws & Hq) | (w0 & Hq)]].
  - pin Hq. discriminate.
  - unfold Detail.handleUpdateTask in Hq. rewrite truthy_trim, Hws in Hq.
    pin Hq. discriminate.
  - pin Hq. cbn in Hr. injection Hr as <-. split; [reflexivity|].
    subst w'. unfold Detail.step, respond. fold w. rewrite Hp. cbn.
    destruct (srv _); observe; repeat split; reflexivity.
Qed.

Lemma delete_settles_witness :
  let t := Api.mkTask 42 (lit "X") None false [] in
  let es := [Detail.Respond 0 (answering [] t); Detail.PressDelete;
             Detail.Choose 0 1] in
  let w := Detail.run 42 es (Detail.mount 42) in
  let w' := Detail.step 42 (Detail.Respond 0 (failing (HttpStatus 404))) w in
  nth_error (in_flight w) 0 = Some (axios_delete (Detail.item_url 42)) /\
  state w' = state w /\
  calls w' = calls w ++ [console_error "Delete Error:" (HttpStatus 404); delete_failed].
Proof.
  intros t es w w'.
  assert (Hi : nth_error (in_flight (Detail.run 42 es (Detail.mount 42))) 0
               = Some (axios_delete (Detail.item_url 42))) by reflexivity.
  destruct (delete_settles 42 es 0 (failing (HttpStatus 404)) _ Hi)
    as (_ & H2 & _ & H4).
  split; [exact Hi|]. split; [exact H2 | exact H4].
Defined.

Lemma detail_step_sent taskId (e : Detail.Event) (w : Detail.Rt) :
  detail_inv taskId w ->
  exists rs, sent (Detail.step taskId e w) = sent w ++ rs
             /\ Forall (detail_request taskId) rs.
Proof.
  intros Hinv.
  assert (Hnil : forall w' : Detail.Rt, sent w' = sent w ->
            exists rs, sent w' = sent w ++ rs /\ Forall (detail_request taskId) rs).
  { intros w' H. exists []. rewrite app_nil_r. split; [exact H | constructor]. }
  destruct e as [v|v|v| | | |i j|i srv]; unfold Detail.step.
  - apply Hnil. destruct (Detail.loading _); reflexivity.
  - apply Hnil. destruct (Detail.loading _); reflexivity.
  - apply Hnil. destruct (Detail.loading _); reflexivity.
  - destruct (Detail.loading _ || Detail.saving _); [now apply Hnil|].
    destruct (whitespace_only (Detail.title (state w))) eqn:Ews.
    + apply Hnil. rewrite (detail_update_rejected _ _ _ Ews). apply sent_perform.
    + destruct (detail_update_submitted taskId _ w Ews) as (ok & err & ->).
      exists [axios_put (Detail.item_url taskId) (detail_body (state w))].
      split; [now rewrite sent_send|].
      constructor; [|constructor]. left. unfold detail_body. do 3 eexists.
      split; [reflexivity|]. split; [|split; apply tidy_trim].
      intros H. apply trim_nil_iff in H. congruence.
  - apply Hnil. destruct (Detail.loading _); [reflexivity|]. apply sent_perform.
  - apply Hnil. destruct (Detail.loading _); [reflexivity|]. apply sent_perform.
  - unfold choose. destruct (nth_error (dialogs w) i) as [bs|] eqn:E; [|now apply Hnil].
    assert (Hbs : bs = [] \/ bs = prompt_buttons).
    { destruct Hinv as (_ & _ & Hd). rewrite Forall_forall in Hd.
      apply Hd. eapply nth_error_In; eauto. }
    destruct Hbs as [-> | ->].
    + apply Hnil. destruct j; reflexivity.
    + destruct j as [|[|j]]; cbn.
      * now apply Hnil.
      * exists [axios_delete (Detail.item_url taskId)].
        split; [observe; reflexivity|]. constructor; [now right | constructor].
      * apply Hnil. destruct j; reflexivity.
  - apply Hnil. unfold respond.
    destruct (nth_error (pending w) i) as [p|] eqn:E; [|reflexivity].
    assert (Hp : detail_known taskId p).
    { destruct Hinv as (Hk & _). apply nth_error_In in E.
      rewrite Forall_forall in Hk. auto. }
    destruct Hp as [(w0 & Hp) | [(s & w0 & Hs & Hp) | (w0 & Hp)]].
    + pin Hp. cbn. destruct (srv _); observe; reflexivity.
    + unfold Detail.handleUpdateTask in Hp. rewrite truthy_trim, Hs in Hp. pin Hp.
      cbn. destruct (srv _); observe; reflexivity.
    + pin Hp. cbn. destruct (srv _); observe; reflexivity.
Qed.

(** X14. Whatever happens, the detail screen sends its GET for the route's
    task once, first, and never again; every later request is a PUT or a
    DELETE of that same task's URL, and every PUT carries a title that is
    not empty, a title and description without white space at their ends,
    and the completion flag. *)
Theorem detail_screen_requests (taskId : Z) (es : list Detail.Event) :
  exists rs,
    sent (Detail.run taskId es (Detail.mount taskId))
    = axios_get TaskObject (Detail.item_url taskId) :: rs
    /\ Forall (detail_request taskId) rs.
Proof.
  assert (G : forall w, detail_inv taskId w ->
            exists rs, sent (Detail.run taskId es w) = sent w ++ rs
                       /\ Forall (detail_request taskId) rs).
  { induction es as [|e es IH]; intros w Hi.
    - exists []. rewrite app_nil_r. split; [reflexivity | constructor].
    - destruct (detail_step_sent taskId e w Hi) as (r1 & H1 & F1).
      destruct (IH _ (detail_inv_step taskId e w Hi)) as (r2 & H2 & F2).
      exists (r1 ++ r2). change (Detail.run taskId (e :: es) w)
        with (Detail.run taskId es (Detail.step taskId e w)).
      rewrite H2, H1, app_assoc. split; [reflexivity | now apply Forall_app]. }
  destruct (G _ (detail_inv_mount taskId)) as (rs & H & F).
  exists rs. split; [exact H | exact F].
Qed.

Lemma fetching_ext (w w' : Detail.Rt) :
  in_flight w' = in_flight w ->
  Detail.loading (state w') = Detail.loading (state w) ->
  fetching w -> fetching w'.
Proof. unfold fetching. intros -> ->. auto. Qed.

Lemma fetching_sent (w w' : Detail.Rt) r :
  in_flight w' = in_flight w ++ [r] -> is_get r = false ->
  Detail.loading (state w') = Detail.loading (state w) ->
  fetching w -> fetching w'.
Proof.
  unfold fetching. intros -> Hr -> H. rewrite count_app, H.
  unfold count. cbn. rewrite Hr. cbn. lia.
Qed.

Lemma fetching_step taskId (e : Detail.Event) (w : Detail.Rt) :
  detail_inv taskId w -> fetching w -> fetching (Detail.step taskId e w).
Proof.
  intros Hinv Hf.
  destruct e as [v|v|v| | | |i j|i srv]; unfold Detail.step.
  - destruct (Detail.loading _) eqn:E; [exact Hf|].
    revert Hf. apply fetching_ext; reflexivity.
  - destruct (Detail.loading _) eqn:E; [exact Hf|].
    revert Hf. apply fetching_ext; reflexivity.
  - destruct (Detail.loading _) eqn:E; [exact Hf|].
    revert Hf. apply fetching_ext; reflexivity.
  - destruct (Detail.loading _ || Detail.saving _); [exact Hf|].
    destruct (whitespace_only (Detail.title (state w))) eqn:Ews.
    + rewrite (detail_update_rejected _ _ _ Ews).
      revert Hf. apply fetching_ext; [|apply f_equal, state_perform].
      unfold in_flight. now rewrite pending_perform.
    + destruct (detail_update_submitted taskId _ w Ews) as (ok & err & ->).
      revert Hf. apply fetching_sent with (r := axios_put (Detail.item_url taskId)
                                                  (detail_body (state w)));
        [now rewrite in_flight_send | reflexivity | reflexivity].
  - destruct (Detail.loading _) eqn:E; [exact Hf|].
    revert Hf. apply fetching_ext; reflexivity.
  - destruct (Detail.loading _) eqn:E; [exact Hf|].
    revert Hf. apply fetching_ext; reflexivity.
  - unfold choose. destruct (nth_error (dialogs w) i) as [bs|] eqn:E; [|exact Hf].
    assert (Hbs : bs = [] \/ bs = prompt_buttons).
    { destruct Hinv as (_ & _ & Hd). rewrite Forall_forall in Hd.
      apply Hd. eapply nth_error_In; eauto. }
    destruct Hbs as [-> | ->].
    + destruct j; revert Hf; apply fetching_ext; reflexivity.
    + destruct j as [|[|j]]; cbn.
      * revert Hf; apply fetching_ext; reflexivity.
      * revert Hf. apply fetching_sent with (r := axios_delete (Detail.item_url taskId));
          [now rewrite in_flight_send | reflexivity | reflexivity].
      * destruct j; revert Hf; apply fetching_ext; reflexivity.
  - unfold respond.
    destruct (nth_error (pending w) i) as [p|] eqn:E; [|exact Hf].
    assert (Hp : detail_known taskId p).
    { destruct Hinv as (Hk & _). apply nth_error_In in E.
      rewrite Forall_forall in Hk. auto. }
    assert (Er : nth_error (in_flight w) i = Some (p_req p)).
    { unfold in_flight. now rewrite nth_error_map, E. }
    pose proof (count_remove_nth is_get _ _ _ Er) as Hn.
    unfold fetching in *. rewrite Hf in Hn.
    unfold in_flight in *. rewrite <- map_remove_nth in Hn.
    destruct Hp as [(w0 & Hp) | [(s & w0 & Hs & Hp) | (w0 & Hp)]].
    + pin Hp. cbn in *. destruct (srv _); cbn;
        destruct (Detail.loading (state w)); lia.
    + unfold Detail.handleUpdateTask in Hp. rewrite truthy_trim, Hs in Hp. pin Hp.
      cbn in *. destruct (srv _); cbn; lia.
    + pin Hp. cbn in *. destruct (srv _); cbn; lia.
Qed.

(** X15. In every state the detail screen can reach, [loading] is true
    exactly while the task GET is in flight: the spinner never stays after
    the fetch has settled and never comes back. *)
Theorem spinner_shows_while_fetching (taskId : Z) (es : list Detail.Event) :
  fetching (Detail.run taskId es (Detail.mount taskId)).
Proof.
  assert (G : forall w, detail_inv taskId w -> fetching w ->
                        fetching (Detail.run taskId es w)).
  { induction es as [|e es IH]; intros w Hi Hf; [exact Hf|].
    cbn. apply IH; [apply detail_inv_step, Hi | apply (fetching_step taskId); assumption]. }
  apply G; [apply detail_inv_mount | reflexivity].
Qed.
